(** * The router service of ember-routing: a shallow embedding

    Source: [packages/ember-routing/lib/services/router.js].

    The service is a facade over the application router ([this._router]) and
    the route recognizer it owns ([_routerMicrolib]).  Its four methods are
    embedded as computations of a state-and-exception monad over a store of
    JavaScript objects; every call that leaves the service is recorded in a
    trace, so that "delegates to", "never calls" and "calls exactly once" are
    statements about that trace. *)

From stdpp Require Import base option list strings gmap pretty.
From Stdlib Require Import ZArith.

Open Scope Z_scope.
Open Scope string_scope.
Open Scope list_scope.

(** ** JavaScript values and objects *)

Definition loc := positive.

(** Primitive values are immediate; objects live in the heap and are denoted
    by their location, so that two references to one object alias. *)
Inductive value : Type :=
| VUndefined
| VNull
| VBool (b : bool)
| VNum (n : Z)
| VStr (s : string)
| VSymbol (name : string)
| VRef (l : loc).

#[global] Instance value_eq_dec : EqDecision value.
Proof. solve_decision. Defined.

(** An object is a bag of own properties; an array carries its elements as
    well.  Key order plays no role in any operation of the service. *)
Record obj : Type := Obj {
  elems : option (list value);
  props : gmap string value
}.

Definition plain (m : gmap string value) : obj := Obj None m.
Definition array (l : list value) : obj := Obj (Some l) ∅.

Definition is_plain (o : obj) : bool :=
  match elems o with None => true | Some _ => false end.

Abbreviation heap := (gmap loc obj).

(** JavaScript truthiness, as used by [!x]. *)
Definition truthy (v : value) : bool :=
  match v with
  | VUndefined | VNull => false
  | VBool b => b
  | VNum n => negb (n =? 0)%Z
  | VStr s => negb (bool_decide (s = ""))
  | VSymbol _ | VRef _ => true
  end.

(** [a === b]. *)
Definition strict_eq (a b : value) : bool := bool_decide (a = b).

(** [args[i]]: reading past the end of an array gives [undefined]. *)
Definition arg (i : nat) (args : list value) : value :=
  default VUndefined (args !! i).

(** The object a value refers to, if it refers to one. *)
Definition deref (h : heap) (v : value) : option obj :=
  match v with
  | VRef l => h !! l
  | _ => None
  end.

(** The property map of a plain (non-array) object. *)
Definition mapping_of (h : heap) (v : value) : option (gmap string value) :=
  match deref h v with
  | Some o => if is_plain o then Some (props o) else None
  | None => None
  end.

Definition array_of (h : heap) (v : value) : option (list value) :=
  match deref h v with
  | Some o => elems o
  | None => None
  end.

(** [o[k]] on an object. *)
Definition get_prop (h : heap) (v : value) (k : string) : value :=
  match deref h v with
  | Some o => default VUndefined (props o !! k)
  | None => VUndefined
  end.

(** [Object.keys(v).length]: a [TypeError] on [undefined] and [null]
    (rendered as [None]), the number of own enumerable keys otherwise. *)
Definition own_keys_count (h : heap) (v : value) : option nat :=
  match v with
  | VUndefined | VNull => None
  | VStr s => Some (String.length s)
  | VRef l =>
      match h !! l with
      | Some o => Some (length (default [] (elems o)) + size (props o))%nat
      | None => None
      end
  | _ => Some 0%nat
  end.

(** [o[k] = x] in strict mode: only objects accept the write. *)
Definition store_prop (h : heap) (v : value) (k : string) (x : value)
  : option heap :=
  match v with
  | VRef l =>
      match h !! l with
      | Some o => Some (<[l := Obj (elems o) (<[k := x]> (props o))]> h)
      | None => None
      end
  | _ => None
  end.

(** ** The calls that leave the service

    [_doURLTransition], [_doTransition], [generate] and [_prepareQueryParams]
    are methods of [this._router]; [isActiveIntent] and [state.queryParams]
    belong to [this._router._routerMicrolib].  An argument list and the
    [models] array are built anew for each call of the service and are
    written as the list of their elements; every other object is passed by
    reference. *)
Inductive call : Type :=
| DoURLTransition (kind : string) (url : value)
| DoTransition (routeName : value) (models : list value)
    (queryParams : value) (fromRouterService : bool)
| Generate (args : list value)
| IsActiveIntent (routeName : value) (models : list value) (reserved : value)
| PrepareQueryParams (routeName : value) (models : list value)
    (queryParams : value) (fromRouterService : bool)
| StateQueryParams.

Definition is_transition_call (c : call) : bool :=
  match c with
  | DoURLTransition _ _ | DoTransition _ _ _ _ => true
  | _ => false
  end.

Definition is_url_call (c : call) : bool :=
  match c with
  | DoURLTransition _ _ => true
  | _ => false
  end.

(** ** Stores, outcomes and the monad *)

Inductive exn : Type :=
| TypeError
| Thrown (v : value).

Inductive outcome (A : Type) : Type :=
| Ok (a : A)
| Throw (e : exn).
Arguments Ok {A} a.
Arguments Throw {A} e.

(** The objects of the program together with whatever the router keeps for
    itself (its navigational state), of some type [E]. *)
Record store (E : Type) : Type := Store {
  objects : heap;
  nav : E
}.
Arguments Store {E} objects nav.
Arguments objects {E} s.
Arguments nav {E} s.

Record world (E : Type) : Type := World {
  st : store E;
  trace : list call
}.
Arguments World {E} st trace.
Arguments st {E} w.
Arguments trace {E} w.

Definition M (E A : Type) : Type := world E → outcome A * world E.

Definition ret {E A} (a : A) : M E A := λ w, (Ok a, w).

Definition throw {E A} (e : exn) : M E A := λ w, (Throw e, w).

Definition bind {E A B} (m : M E A) (k : A → M E B) : M E B :=
  λ w, match m w with
       | (Ok a, w') => k a w'
       | (Throw e, w') => (Throw e, w')
       end.

Declare Scope js_scope.
Delimit Scope js_scope with js.
Notation "'let*' x := m 'in' k" := (bind m (λ x, k))
  (at level 10, x name, m at level 100, k at level 200) : js_scope.
Notation "m ;;; k" := (bind m (λ _, k))
  (at level 100, k at level 200, right associativity) : js_scope.
Open Scope js_scope.

Definition get_heap {E} : M E heap := λ w, (Ok (objects (st w)), w).

Definition set_heap {E} (h : heap) : M E unit :=
  λ w, (Ok tt, World (Store h (nav (st w))) (trace w)).

(** [{ ...props }]: a new object at a location not in use. *)
Definition alloc {E} (o : obj) : M E value :=
  λ w, let h := objects (st w) in
       let l := fresh (dom h) in
       (Ok (VRef l), World (Store (<[l := o]> h) (nav (st w))) (trace w)).

Definition lift_option {E A} (o : option A) : M E A :=
  match o with
  | Some a => ret a
  | None => throw TypeError
  end.

(** [v[k] = x]. *)
Definition set_prop {E} (v : value) (k : string) (x : value) : M E unit :=
  let* h := get_heap in
  let* h' := lift_option (store_prop h v k x) in
  set_heap h'.

(** ** The helpers imported from [../utils] *)

(** Modelled from the spec: [resemblesURL] of [../utils], which is not part
    of the sources at hand.  A string resembles a URL if it starts with [/],
    with [#], or is scheme-relative (begins with [//]); nothing else does. *)
Definition resemblesURL (v : value) : bool :=
  match v with
  | VStr s =>
      String.prefix "/" s || String.prefix "#" s || String.prefix "//" s
  | _ => false
  end.

Record RouteArgs : Type := mkRouteArgs {
  routeName : value;
  models : list value;
  queryParams : value
}.

(** A plain mapping with a [queryParams] key. *)
Definition is_options_hash (h : heap) (v : value) : bool :=
  match mapping_of h v with
  | Some m => bool_decide (is_Some (m !! "queryParams"))
  | None => false
  end.

(** Modelled from the spec: [extractRouteArgs] of [../utils], which is not
    part of the sources at hand.  Of the argument list [[first, ...rest]] the
    route name is [first]; if the last element of [rest] is a plain mapping
    with a [queryParams] key it is the options hash, it is removed from
    [rest] and its [queryParams] value becomes the query-parameter map;
    otherwise the query-parameter map is a new empty mapping.  What remains
    of [rest] are the models. *)
Definition extractRouteArgs {E} (args : list value) : M E RouteArgs :=
  let first := arg 0 args in
  let rest := tail args in
  let trailing := default VUndefined (last rest) in
  let* h := get_heap in
  if is_options_hash h trailing then
    ret (mkRouteArgs first (removelast rest)
           (get_prop h trailing "queryParams"))
  else
    let* empty := alloc (plain ∅) in
    ret (mkRouteArgs first rest empty).

(** The call rebuilt from a normalized request, as the specification's
    round trip has it: [routeName, ...models, { queryParams }]. *)
Definition reconstruct {E} (ra : RouteArgs) : M E (list value) :=
  let* options := alloc (plain {[ "queryParams" := queryParams ra ]}) in
  ret (routeName ra :: models ra ++ [options]).

(** Primitive/array-shallow comparison of two property values: two arrays
    are compared element by element with [===], anything else with [===]. *)
Definition value_shallow_eq (h : heap) (a b : value) : bool :=
  match array_of h a, array_of h b with
  | Some xs, Some ys => bool_decide (xs = ys)
  | _, _ => strict_eq a b
  end.

Definition mapping_shallow_eq (h : heap) (a b : gmap string value) : bool :=
  bool_decide (dom a = dom b)
  && forallb (λ k, value_shallow_eq h (default VUndefined (a !! k))
                                      (default VUndefined (b !! k)))
       (elements (dom a)).

(** Modelled from the spec: [shallowEqual] of [../utils], which is not part
    of the sources at hand.  Two mappings are equivalent iff they have the
    same set of keys and, for each key, the same value under
    primitive/array-shallow comparison.  The contract speaks of mappings
    only; an operand that is none is a malformed argument ([None]). *)
Definition shallowEqual (h : heap) (a b : value) : option bool :=
  match mapping_of h a, mapping_of h b with
  | Some ma, Some mb => Some (mapping_shallow_eq h ma mb)
  | _, _ => None
  end.

(** Modelled from the spec: the [method] setter of a Transition, which is
    owned by the transition engine.  It mutates the Transition's method and
    hands the same Transition back. *)
Definition Transition_method {E} (t : value) (m : string) : M E value :=
  set_prop t "method" (VStr m);;;
  ret t.

(** ** The service *)

Section RouterService.

Context {E : Type}.

(** [this._router] and its [_routerMicrolib]: each call maps the store to a
    result (or an exception) and a new store. *)
Variable router : call → store E → outcome value * store E.

Definition invoke (c : call) : M E value :=
  λ w, let '(r, s) := router c (st w) in (r, World s (trace w ++ [c])).

(** [transitionTo(...args)], lines 134-145. *)
Definition transitionTo (args : list value) : M E value :=
  if resemblesURL (arg 0 args) then
    invoke (DoURLTransition "transitionTo" (arg 0 args))
  else
    let* ra := extractRouteArgs args in
    let* transition :=
      invoke (DoTransition (routeName ra) (models ra) (queryParams ra) true) in
    set_prop transition "_keepDefaultQueryParamValues" (VBool true);;;
    ret transition.

(** [replaceWith()], lines 164-166. *)
Definition replaceWith (args : list value) : M E value :=
  let* transition := transitionTo args in
  Transition_method transition "replace".

(** [urlFor()], lines 234-236. *)
Definition urlFor (args : list value) : M E value :=
  invoke (Generate args).

(** [isActive(...args)], lines 251-271. *)
Definition isActive (args : list value) : M E value :=
  let* ra := extractRouteArgs args in
  let* active :=
    invoke (IsActiveIntent (routeName ra) (models ra) VNull) in
  if negb (truthy active) then ret (VBool false)
  else
    let* h := get_heap in
    let* n := lift_option (own_keys_count h (queryParams ra)) in
    let hasQueryParams := bool_decide (0 < n)%nat in
    if hasQueryParams then
      invoke (PrepareQueryParams (routeName ra) (models ra)
                (queryParams ra) true);;;
      let* current := invoke StateQueryParams in
      let* h' := get_heap in
      let* same := lift_option (shallowEqual h' (queryParams ra) current) in
      ret (VBool same)
    else ret (VBool true).

(** What is left of [isActive] once the structural check has answered
    (lines 255-270), named for the proofs: [isActive] is the normalization
    and the structural check followed by this. *)
Definition isActive_after_intent (ra : RouteArgs) (active : value)
  : M E value :=
  if negb (truthy active) then ret (VBool false)
  else
    let* h := get_heap in
    let* n := lift_option (own_keys_count h (queryParams ra)) in
    if bool_decide (0 < n)%nat then
      invoke (PrepareQueryParams (routeName ra) (models ra)
                (queryParams ra) true);;;
      let* current := invoke StateQueryParams in
      let* h' := get_heap in
      let* same := lift_option (shallowEqual h' (queryParams ra) current) in
      ret (VBool same)
    else ret (VBool true).

(** The store a sequence of calls leaves, one after the other. *)
Definition run_calls (cs : list call) (s : store E) : store E :=
  fold_left (λ s c, (router c s).2) cs s.

End RouterService.

(** ** A reference router

    The application router and its recognizer are collaborators of the
    service.  The definitions below give the simplest router that meets the
    contracts the specification states for them; the theorems about the
    service hold for every router, and this one exercises them on concrete
    calls. *)

Record NavState : Type := mkNav {
  currentRouteName : string;
  currentModels : list value;
  currentQueryParams : value;
  routes : gmap string string;
  defaults : gmap string value
}.

(** The reserved "use default" value of a query parameter. *)
Definition DEFAULT_VALUE : value := VSymbol "DEFAULT_VALUE".

Definition serialize (v : value) : string :=
  match v with
  | VUndefined => "undefined"
  | VNull => "null"
  | VBool true => "true"
  | VBool false => "false"
  | VNum n => pretty n
  | VStr s => s
  | VSymbol _ | VRef _ => ""
  end.

Definition is_default (kv : string * value) : bool :=
  bool_decide (kv.2 = DEFAULT_VALUE).

Definition emitted (m : gmap string value) : list (string * value) :=
  List.filter (λ kv, negb (is_default kv)) (map_to_list m).

Definition render (kv : string * value) : string :=
  (kv.1 ++ "=" ++ serialize kv.2)%string.

Fixpoint join (sep : string) (l : list string) : string :=
  match l with
  | [] => ""
  | [x] => x
  | x :: l' => (x ++ sep ++ join sep l')%string
  end.

Definition query_string (m : gmap string value) : string :=
  match emitted m with
  | [] => ""
  | ps => ("?" ++ join "&" (render <$> ps))%string
  end.

Definition route_path (n : NavState) (name : value) (ms : list value)
  : string :=
  (match name with
   | VStr r => default ("/" ++ r) (routes n !! r)
   | _ => "/"
   end ++ String.concat "" ((λ m, "/" ++ serialize m) <$> ms))%string.

(** Modelled from the spec: [generate] of the router, which is not part of
    the sources at hand.  It generates the URL of [routeName, ...models,
    options?]; every key of the options hash's [queryParams] appears in the
    URL with its value, whatever the defaults are, except a key whose value
    is the reserved "use default" value, which is left out. *)
Definition generate (s : store NavState) (args : list value) : string :=
  let h := objects s in
  let options := default VUndefined (last (tail args)) in
  if is_options_hash h options then
    (route_path (nav s) (arg 0 args) (removelast (tail args))
     ++ query_string
          (default ∅ (mapping_of h (get_prop h options "queryParams"))))%string
  else route_path (nav s) (arg 0 args) (tail args).

(** [p] appears literally in [s]. *)
Definition occurs_in (p s : string) : Prop :=
  ∃ pre post, s = (pre ++ p ++ post)%string.

(** Modelled from the spec: [isActiveIntent] of the recognizer, which is not
    part of the sources at hand.  The current route matches a name if its
    hierarchical name equals it or is a descendant of it, with matching
    models, ancestors first. *)
Definition isActiveIntent (n : NavState) (name : value) (ms : list value)
  : bool :=
  match name with
  | VStr r =>
      (bool_decide (currentRouteName n = r)
       || String.prefix (r ++ ".")%string (currentRouteName n))
      && bool_decide (ms `prefix_of` currentModels n)
  | _ => false
  end.

(** Modelled from the spec: [_prepareQueryParams] of the router, which is
    not part of the sources at hand.  It mutates [queryParams] in place with
    the reconciled values: a parameter the caller did not supply takes its
    current value; when the call does not come from the service, parameters
    that carry their default value are elided. *)
Definition prepareQueryParams (s : store NavState) (qp : value)
    (fromRouterService : bool) : store NavState :=
  match qp, mapping_of (objects s) qp with
  | VRef l, Some m =>
      let current :=
        default ∅ (mapping_of (objects s) (currentQueryParams (nav s))) in
      let hydrated := m ∪ current in
      let reconciled :=
        if fromRouterService then hydrated
        else filter (λ kv, defaults (nav s) !! kv.1 ≠ Some kv.2) hydrated in
      Store (<[l := plain reconciled]> (objects s)) (nav s)
  | _, _ => s
  end.

(** Modelled from the spec: the transition primitives of the router, which
    are not part of the sources at hand.  Each hands back a new Transition;
    the navigational state settles later. *)
Definition newTransition (s : store NavState) (o : gmap string value)
  : outcome value * store NavState :=
  let l := fresh (dom (objects s)) in
  (Ok (VRef l), Store (<[l := plain o]> (objects s)) (nav s)).

Definition reference_router (c : call) (s : store NavState)
  : outcome value * store NavState :=
  match c with
  | DoURLTransition kind url =>
      newTransition s {[ "kind" := VStr kind; "url" := url ]}
  | DoTransition name ms qp _ =>
      newTransition s {[ "targetName" := name; "queryParams" := qp ]}
  | Generate args => (Ok (VStr (generate s args)), s)
  | IsActiveIntent name ms _ => (Ok (VBool (isActiveIntent (nav s) name ms)), s)
  | PrepareQueryParams _ _ qp from =>
      (Ok VUndefined, prepareQueryParams s qp from)
  | StateQueryParams => (Ok (currentQueryParams (nav s)), s)
  end.

(** A settled application at [/blog/7?page=2&sort=asc], whose [page] and
    [sort] parameters default to [0] and ["asc"]. *)
Definition blog_nav : NavState :=
  mkNav "blog.post" [VNum 7] (VRef 1%positive)
    {[ "index" := "/"; "blog" := "/blog"; "blog.post" := "/blog" ]}
    {[ "page" := VNum 0; "sort" := VStr "asc" ]}.

Definition blog_heap : heap :=
  {[ 1%positive := plain {[ "page" := VNum 2; "sort" := VStr "asc" ]} ]}.

Definition blog_world : world NavState :=
  World (Store blog_heap blog_nav) [].

(** The options hash [{ queryParams: { page: 2 } }] at locations 2 and 3. *)
Definition page2_heap : heap :=
  <[ 3%positive := plain {[ "queryParams" := VRef 2%positive ]} ]>
    (<[ 2%positive := plain {[ "page" := VNum 2 ]} ]> blog_heap).

Definition page2_world : world NavState :=
  World (Store page2_heap blog_nav) [].

(** A call with another route name in the place of its own; calls that carry
    no route name stay as they are. *)
Definition with_route_name (name : value) (c : call) : call :=
  match c with
  | IsActiveIntent _ ms reserved => IsActiveIntent name ms reserved
  | PrepareQueryParams _ ms qp from => PrepareQueryParams name ms qp from
  | _ => c
  end.

(** ** Routers that fail

    A router whose calls selected by [fails] throw, leaving the store as it
    is; its other calls are the reference router's. *)
Definition router_error : exn := Thrown (VStr "router error").

Definition failing_router (fails : call → bool) (c : call)
    (s : store NavState) : outcome value * store NavState :=
  if fails c then (Throw router_error, s) else reference_router c s.

Definition is_intent_call (c : call) : bool :=
  match c with
  | IsActiveIntent _ _ _ => true
  | _ => false
  end.

Definition is_prepare_call (c : call) : bool :=
  match c with
  | PrepareQueryParams _ _ _ _ => true
  | _ => false
  end.

Definition is_state_read (c : call) : bool :=
  match c with
  | StateQueryParams => true
  | _ => false
  end.

(** The options hash [{ queryParams: null }] at location 3. *)
Definition null_options_world : world NavState :=
  World
    (Store (<[ 3%positive := plain {[ "queryParams" := VNull ]} ]> blog_heap)
       blog_nav) [].

(** * Properties *)

(** Evaluates both sides of a closed equation. *)
Ltac evaluate := vm_compute; reflexivity.

(** ** The monad *)

Section Monad_facts.

Context {E : Type}.

Lemma bind_Ok {A B} (m : M E A) (k : A → M E B) w a w' :
  m w = (Ok a, w') → bind m k w = k a w'.
Proof. intros H. unfold bind. by rewrite H. Qed.

Lemma bind_Throw {A B} (m : M E A) (k : A → M E B) w e w' :
  m w = (Throw e, w') → bind m k w = (Throw e, w').
Proof. intros H. unfold bind. by rewrite H. Qed.

Lemma fresh_unused (h : heap) : h !! fresh (dom h) = None.
Proof. apply not_elem_of_dom, is_fresh. Qed.

Lemma alloc_preserves (h : heap) (o o' : obj) l :
  h !! l = Some o → <[fresh (dom h) := o']> h !! l = Some o.
Proof.
  intros H. rewrite lookup_insert_ne; [done |].
  intros <-. by rewrite fresh_unused in H.
Qed.

End Monad_facts.

(** ** Argument normalization *)

Section Normalization.

Context {E : Type}.
Implicit Types (w : world E) (args : list value).

Lemma is_options_hash_spec (h : heap) v :
  is_options_hash h v = true ↔
  ∃ m, mapping_of h v = Some m ∧ is_Some (m !! "queryParams").
Proof.
  unfold is_options_hash. destruct (mapping_of h v) as [m|].
  - rewrite bool_decide_eq_true. split; [eauto |].
    by intros (m' & [= <-] & ?).
  - split; [done |]. by intros (m & ? & _).
Qed.

Lemma extractRouteArgs_options args w :
  let h := objects (st w) in
  let options := default VUndefined (last (tail args)) in
  is_options_hash h options = true →
  extractRouteArgs args w =
    (Ok (mkRouteArgs (arg 0 args) (removelast (tail args))
           (get_prop h options "queryParams")), w).
Proof.
  intros h options H. unfold extractRouteArgs, bind, get_heap, ret.
  fold h options. by rewrite H.
Qed.

Lemma extractRouteArgs_no_options args w :
  let h := objects (st w) in
  let options := default VUndefined (last (tail args)) in
  is_options_hash h options = false →
  extractRouteArgs args w =
    (Ok (mkRouteArgs (arg 0 args) (tail args) (VRef (fresh (dom h)))),
     World (Store (<[fresh (dom h) := plain ∅]> h) (nav (st w))) (trace w)).
Proof.
  intros h options H. unfold extractRouteArgs, bind, get_heap, ret, alloc.
  fold h options. by rewrite H.
Qed.

(** Normalization never fails, calls nothing, and leaves the navigational
    state and every object that exists alone. *)
Lemma extractRouteArgs_total args w :
  ∃ ra w1,
    extractRouteArgs args w = (Ok ra, w1)
    ∧ routeName ra = arg 0 args
    ∧ trace w1 = trace w
    ∧ nav (st w1) = nav (st w)
    ∧ ∀ l o, objects (st w) !! l = Some o → objects (st w1) !! l = Some o.
Proof.
  destruct (is_options_hash (objects (st w))
              (default VUndefined (last (tail args)))) eqn:H.
  - eexists _, _. split; [by apply extractRouteArgs_options |]. naive_solver.
  - eexists _, _. split; [by apply extractRouteArgs_no_options |].
    simpl. repeat split. intros l o Hl. by apply alloc_preserves.
Qed.

(** With a string in front, the last argument of the call is the options
    hash exactly when the last of the arguments after the route name is. *)
Lemma last_after_route_name (h : heap) (name : string) (rest : list value) :
  let lastArg := default VUndefined (last (VStr name :: rest)) in
  let lastRest := default VUndefined (last rest) in
  is_options_hash h lastArg = is_options_hash h lastRest
  ∧ (is_options_hash h lastArg = true → lastArg = lastRest).
Proof.
  destruct rest as [|x rest]; [done |].
  cbv zeta. by rewrite last_cons_cons.
Qed.

End Normalization.

Section Round_trip.

Context {E : Type}.
Implicit Types (w : world E) (args : list value).

(** Rebuilding a call from a request and normalizing it again gives the
    request back. *)
Lemma reconstruct_extract (ra : RouteArgs) w :
  ∃ w2, (let* args' := reconstruct ra in extractRouteArgs args') w
        = (Ok ra, w2).
Proof.
  unfold reconstruct.
  set (h := objects (st w)). set (l := fresh (dom h)).
  set (o := plain {[ "queryParams" := queryParams ra ]}).
  set (w2 := World (Store (<[l := o]> h) (nav (st w))) (trace w)).
  exists w2.
  assert (Ha : alloc o w = (Ok (VRef l), w2)) by done.
  rewrite (bind_Ok _ _ w (routeName ra :: models ra ++ [VRef l]) w2);
    [| by rewrite (bind_Ok _ _ _ _ _ Ha)].
  assert (Hlast : default VUndefined
            (last (tail (routeName ra :: models ra ++ [VRef l]))) = VRef l)
    by (simpl; by rewrite last_snoc).
  assert (Hm : mapping_of (objects (st w2)) (VRef l)
               = Some {[ "queryParams" := queryParams ra ]})
    by (unfold mapping_of; simpl; by rewrite lookup_insert_eq).
  rewrite extractRouteArgs_options; rewrite Hlast.
  - unfold get_prop, arg. simpl. rewrite lookup_insert_eq. simpl.
    rewrite lookup_singleton_eq, removelast_last. by destruct ra.
  - apply is_options_hash_spec. eexists. split; [exact Hm |].
    rewrite lookup_singleton_eq. eauto.
Qed.

End Round_trip.

(** C10.  Argument normalization.  For a call [name, ...rest] whose route
    name is a string: the last argument is taken for the options hash
    exactly when it is a plain mapping with a [queryParams] key, in which
    case it is removed from the models and its [queryParams] value is the
    request's query-parameter map; otherwise every argument after the name
    is a model (a mapping without that key included) and the
    query-parameter map is a new empty mapping.  Normalizing, rebuilding the
    call from the request and normalizing again gives the same
    [routeName], [models], [queryParams]. *)
Theorem extractRouteArgs_contract {E} (name : string) (rest : list value)
    (w : world E) :
  let args := VStr name :: rest in
  let h := objects (st w) in
  let lastArg := default VUndefined (last args) in
  (is_options_hash h lastArg = true ↔
     ∃ m, mapping_of h lastArg = Some m ∧ is_Some (m !! "queryParams"))
  ∧ (if is_options_hash h lastArg then
       extractRouteArgs args w =
         (Ok (mkRouteArgs (VStr name) (removelast rest)
                (get_prop h lastArg "queryParams")), w)
     else
       ∃ l, h !! l = None
         ∧ extractRouteArgs args w =
             (Ok (mkRouteArgs (VStr name) rest (VRef l)),
              World (Store (<[l := plain ∅]> h) (nav (st w))) (trace w)))
  ∧ ∃ ra w1 w2,
      extractRouteArgs args w = (Ok ra, w1)
      ∧ (let* args' := reconstruct ra in extractRouteArgs args') w1
        = (Ok ra, w2).
Proof.
  intros args h lastArg. split; [apply is_options_hash_spec |]. split.
  - destruct (last_after_route_name h name rest) as [Heq Hlast].
    fold args lastArg in Heq, Hlast.
    destruct (is_options_hash h lastArg) eqn:Hopt.
    + rewrite (Hlast eq_refl). symmetry in Heq.
      by rewrite (extractRouteArgs_options args w Heq).
    + exists (fresh (dom h)). split; [apply fresh_unused |].
      symmetry in Heq. by rewrite (extractRouteArgs_no_options args w Heq).
  - destruct (extractRouteArgs_total args w) as (ra & w1 & Hra & _).
    destruct (reconstruct_extract ra w1) as [w2 Hw2]. eauto.
Qed.

(** [extractRouteArgs(['blog.post', 7, { queryParams: { page: 2 } }])]. *)
Example extractRouteArgs_with_options :
  fst (extractRouteArgs [VStr "blog.post"; VNum 7; VRef 3%positive]
         page2_world)
  = Ok (mkRouteArgs (VStr "blog.post") [VNum 7] (VRef 2%positive)).
Proof. evaluate. Qed.

(** [extractRouteArgs(['blog.post', m])] where [m] is a mapping without a
    [queryParams] key: [m] is a model. *)
Example extractRouteArgs_mapping_model :
  fst (extractRouteArgs [VStr "blog.post"; VRef 2%positive] page2_world)
  = Ok (mkRouteArgs (VStr "blog.post") [VRef 2%positive] (VRef 4%positive)).
Proof. evaluate. Qed.

(** ** The helpers on the specification's examples *)

Example resemblesURL_paths :
  resemblesURL (VStr "/about") = true
  ∧ resemblesURL (VStr "#/about") = true
  ∧ resemblesURL (VStr "//cdn/x") = true
  ∧ resemblesURL (VStr "about") = false
  ∧ resemblesURL (VStr "blog.post") = false
  ∧ resemblesURL VUndefined = false.
Proof. repeat split. Qed.

(** [{ tags: [1, 2], page: 2 }] against a mapping with another array of
    the same elements, and against one whose [page] differs. *)
Example shallowEqual_arrays :
  let h : heap :=
    {[ 1%positive := array [VNum 1; VNum 2];
       2%positive := array [VNum 1; VNum 2];
       3%positive := plain {[ "tags" := VRef 1%positive; "page" := VNum 2 ]};
       4%positive := plain {[ "page" := VNum 2; "tags" := VRef 2%positive ]};
       5%positive := plain {[ "page" := VNum 3; "tags" := VRef 2%positive ]};
       6%positive := plain {[ "page" := VNum 2 ]} ]} in
  shallowEqual h (VRef 3%positive) (VRef 4%positive) = Some true
  ∧ shallowEqual h (VRef 3%positive) (VRef 5%positive) = Some false
  ∧ shallowEqual h (VRef 6%positive) (VRef 4%positive) = Some false.
Proof. vm_compute. repeat split; reflexivity. Qed.

(** ** The service's own steps *)

Section Steps.

Context {E : Type}.
Variable router : call → store E → outcome value * store E.
Implicit Types (w : world E) (args : list value) (s : store E).

Lemma invoke_run c w :
  invoke router c w
  = ((router c (st w)).1, World (router c (st w)).2 (trace w ++ [c])).
Proof. unfold invoke. by destruct (router c (st w)). Qed.

Lemma invoke_Ok c w v s :
  router c (st w) = (Ok v, s) →
  invoke router c w = (Ok v, World s (trace w ++ [c])).
Proof. intros H. by rewrite invoke_run, H. Qed.

Lemma invoke_Throw c w e s :
  router c (st w) = (Throw e, s) →
  invoke router c w = (Throw e, World s (trace w ++ [c])).
Proof. intros H. by rewrite invoke_run, H. Qed.

Lemma invoke_Ok_at c s tr v s' :
  router c s = (Ok v, s') →
  invoke router c (World s tr) = (Ok v, World s' (tr ++ [c])).
Proof. apply (invoke_Ok c (World s tr)). Qed.

Lemma invoke_Throw_at c s tr e s' :
  router c s = (Throw e, s') →
  invoke router c (World s tr) = (Throw e, World s' (tr ++ [c])).
Proof. apply (invoke_Throw c (World s tr)). Qed.

Lemma set_prop_run v k x w :
  set_prop v k x w =
    match store_prop (objects (st w)) v k x with
    | Some h' => (Ok tt, World (Store h' (nav (st w))) (trace w))
    | None => (Throw TypeError, w)
    end.
Proof.
  unfold set_prop, bind, get_heap, lift_option, set_heap, ret, throw.
  by destruct (store_prop _ _ _ _).
Qed.

Lemma store_prop_object (h : heap) l o k x :
  h !! l = Some o →
  store_prop h (VRef l) k x
  = Some (<[l := Obj (elems o) (<[k := x]> (props o))]> h).
Proof. intros H. unfold store_prop. by rewrite H. Qed.

(** The name-based branch of [transitionTo], from the normalized request
    on. *)
Lemma transitionTo_named args w ra w1 :
  resemblesURL (arg 0 args) = false →
  extractRouteArgs args w = (Ok ra, w1) →
  transitionTo router args w =
    (let* transition :=
       invoke router
         (DoTransition (routeName ra) (models ra) (queryParams ra) true) in
     set_prop transition "_keepDefaultQueryParamValues" (VBool true);;;
     ret transition) w1.
Proof.
  intros Hurl Hra. unfold transitionTo. rewrite Hurl.
  by rewrite (bind_Ok _ _ _ _ _ Hra).
Qed.

Lemma transitionTo_url args w :
  resemblesURL (arg 0 args) = true →
  transitionTo router args w
  = invoke router (DoURLTransition "transitionTo" (arg 0 args)) w.
Proof. intros Hurl. unfold transitionTo. by rewrite Hurl. Qed.

End Steps.

(** ** [transitionTo] *)

(** C1.  [transitionTo] looks at its first argument once.  If it resembles a
    URL, the one call that leaves the service is
    [_doURLTransition('transitionTo', first)]; its result (or exception) and
    the store it leaves are those of [transitionTo]: nothing is normalized,
    nothing allocated, nothing written.  Otherwise the arguments are
    normalized and the one call is [_doTransition(routeName, models,
    queryParams, true)] with the extracted request; its exception, if any,
    is passed on, and its result is returned once the flag has been
    written to it. *)
Theorem transitionTo_dispatch {E}
    (router : call → store E → outcome value * store E)
    (args : list value) (w : world E) :
  if resemblesURL (arg 0 args) then
    let c := DoURLTransition "transitionTo" (arg 0 args) in
    transitionTo router args w
    = ((router c (st w)).1, World (router c (st w)).2 (trace w ++ [c]))
  else
    ∃ ra w1,
      extractRouteArgs args w = (Ok ra, w1)
      ∧ let c :=
          DoTransition (routeName ra) (models ra) (queryParams ra) true in
        trace (transitionTo router args w).2 = trace w ++ [c]
        ∧ match router c (st w1) with
          | (Ok t, s) =>
              match
                store_prop (objects s) t "_keepDefaultQueryParamValues"
                  (VBool true)
              with
              | Some h =>
                  transitionTo router args w
                  = (Ok t, World (Store h (nav s)) (trace w ++ [c]))
              | None =>
                  transitionTo router args w
                  = (Throw TypeError, World s (trace w ++ [c]))
              end
          | (Throw e, s) =>
              transitionTo router args w
              = (Throw e, World s (trace w ++ [c]))
          end.
Proof.
  destruct (resemblesURL (arg 0 args)) eqn:Hurl.
  - intros c. by rewrite transitionTo_url, invoke_run.
  - destruct (extractRouteArgs_total args w) as (ra & w1 & Hra & _ & Htr & _).
    exists ra, w1. split; [done |]. intros c.
    rewrite (transitionTo_named router args w ra w1 Hurl Hra).
    destruct (router c (st w1)) as [[t|e] s] eqn:Hc.
    + rewrite (bind_Ok _ _ _ _ _ (invoke_Ok router c w1 t s Hc)).
      unfold bind. rewrite set_prop_run. simpl. rewrite Htr.
      by destruct (store_prop _ _ _ _).
    + rewrite (bind_Throw _ _ _ _ _ (invoke_Throw router c w1 e s Hc)).
      by rewrite Htr.
Qed.

(** [transitionTo('/blog')] goes to the URL-based primitive. *)
Example transitionTo_blog_url :
  trace (transitionTo reference_router [VStr "/blog"] blog_world).2
  = [DoURLTransition "transitionTo" (VStr "/blog")].
Proof. evaluate. Qed.

(** [transitionTo('blog.index')] goes to the name-based primitive, with no
    models and an empty query-parameter map. *)
Example transitionTo_blog_index :
  let w' := (transitionTo reference_router [VStr "blog.index"] blog_world).2 in
  trace w' = [DoTransition (VStr "blog.index") [] (VRef 2%positive) true]
  ∧ mapping_of (objects (st w')) (VRef 2%positive) = Some ∅.
Proof. vm_compute. split; reflexivity. Qed.

(** C4.  On a name-based call for which [_doTransition] hands back a
    Transition, [transitionTo] returns that very Transition with
    [_keepDefaultQueryParamValues] set to [true]; the write happens after
    the primitive has returned and touches nothing else. *)
Theorem transitionTo_keeps_default_query_param_values {E}
    (router : call → store E → outcome value * store E)
    (args : list value) (w w1 : world E) (ra : RouteArgs)
    (l : loc) (o : obj) (s : store E) :
  resemblesURL (arg 0 args) = false →
  extractRouteArgs args w = (Ok ra, w1) →
  router (DoTransition (routeName ra) (models ra) (queryParams ra) true)
    (st w1) = (Ok (VRef l), s) →
  objects s !! l = Some o →
  ∃ w',
    transitionTo router args w = (Ok (VRef l), w')
    ∧ get_prop (objects (st w')) (VRef l) "_keepDefaultQueryParamValues"
      = VBool true
    ∧ objects (st w') !! l
      = Some (Obj (elems o)
                (<["_keepDefaultQueryParamValues" := VBool true]> (props o)))
    ∧ (∀ l', l' ≠ l → objects (st w') !! l' = objects s !! l')
    ∧ nav (st w') = nav s.
Proof.
  intros Hurl Hra Hc Ho.
  rewrite (transitionTo_named router args w ra w1 Hurl Hra).
  rewrite (bind_Ok _ _ _ _ _ (invoke_Ok router _ w1 _ s Hc)).
  unfold bind. rewrite set_prop_run. cbn [st objects nav trace].
  rewrite (store_prop_object _ _ _ _ _ Ho). eexists. split; [done |].
  simpl. unfold get_prop. simpl. rewrite !lookup_insert_eq. simpl.
  rewrite lookup_insert_eq. repeat split.
  intros l' Hne. by rewrite lookup_insert_ne.
Qed.

Lemma transitionTo_keeps_default_query_param_values_witness :
  ∃ w',
    transitionTo reference_router [VStr "blog.post"; VNum 7; VRef 3%positive]
      page2_world = (Ok (VRef 4%positive), w')
    ∧ get_prop (objects (st w')) (VRef 4%positive)
        "_keepDefaultQueryParamValues" = VBool true.
Proof.
  destruct (transitionTo_keeps_default_query_param_values reference_router
              [VStr "blog.post"; VNum 7; VRef 3%positive]
              page2_world page2_world
              (mkRouteArgs (VStr "blog.post") [VNum 7] (VRef 2%positive))
              4%positive
              (plain {[ "targetName" := VStr "blog.post";
                        "queryParams" := VRef 2%positive ]})
              (Store (<[4%positive :=
                          plain {[ "targetName" := VStr "blog.post";
                                   "queryParams" := VRef 2%positive ]}]>
                        page2_heap) blog_nav))
    as (w' & H1 & H2 & _).
  - vm_compute. reflexivity.
  - vm_compute. reflexivity.
  - vm_compute. reflexivity.
  - vm_compute. reflexivity.
  - exists w'. split; assumption.
Defined.

(** ** [replaceWith] *)

(** C5.  [replaceWith] is [transitionTo] on the same arguments followed by
    [method('replace')] on what it returned.  An exception of
    [transitionTo] is passed on.  Otherwise the same Transition is
    returned; its method is ["replace"], everything else about it, every
    other object, the navigational state and the calls made (so also the
    choice between the URL-based and the name-based primitive) are those of
    the [transitionTo] call. *)
Theorem replaceWith_transitionTo_replace {E}
    (router : call → store E → outcome value * store E)
    (args : list value) (w : world E) :
  match transitionTo router args w with
  | (Throw e, w1) => replaceWith router args w = (Throw e, w1)
  | (Ok t, w1) =>
      match deref (objects (st w1)) t with
      | Some o =>
          ∃ l, t = VRef l
            ∧ replaceWith router args w =
                (Ok t,
                 World
                   (Store
                      (<[l := Obj (elems o)
                                (<["method" := VStr "replace"]> (props o))]>
                         (objects (st w1)))
                      (nav (st w1)))
                   (trace w1))
      | None => replaceWith router args w = (Throw TypeError, w1)
      end
  end.
Proof.
  unfold replaceWith.
  destruct (transitionTo router args w) as [[t|e] w1] eqn:Ht.
  - rewrite (bind_Ok _ _ _ _ _ Ht). unfold Transition_method, bind.
    rewrite set_prop_run.
    destruct t as [| | | | | |l]; try done. simpl.
    destruct (objects (st w1) !! l) as [o|] eqn:Ho; [| done].
    by exists l.
  - by rewrite (bind_Throw _ _ _ _ _ Ht).
Qed.

(** [replaceWith('blog.post', 7, { queryParams: { page: 2 } })] and
    [replaceWith('/blog')]: the Transition of the corresponding
    [transitionTo], with method ["replace"]. *)
Example replaceWith_named :
  let args := [VStr "blog.post"; VNum 7; VRef 3%positive] in
  let r := replaceWith reference_router args page2_world in
  let t := transitionTo reference_router args page2_world in
  r.1 = t.1
  ∧ trace r.2 = trace t.2
  ∧ deref (objects (st t.2)) (VRef 4%positive)
    = Some (plain {[ "targetName" := VStr "blog.post";
                     "queryParams" := VRef 2%positive;
                     "_keepDefaultQueryParamValues" := VBool true ]})
  ∧ deref (objects (st r.2)) (VRef 4%positive)
    = Some (plain {[ "targetName" := VStr "blog.post";
                     "queryParams" := VRef 2%positive;
                     "_keepDefaultQueryParamValues" := VBool true;
                     "method" := VStr "replace" ]}).
Proof. vm_compute. repeat split; reflexivity. Qed.

Example replaceWith_url :
  let r := replaceWith reference_router [VStr "/blog"] blog_world in
  r.1 = Ok (VRef 2%positive)
  ∧ trace r.2 = [DoURLTransition "transitionTo" (VStr "/blog")]
  ∧ deref (objects (st r.2)) (VRef 2%positive)
    = Some (plain {[ "kind" := VStr "transitionTo"; "url" := VStr "/blog";
                     "method" := VStr "replace" ]}).
Proof. vm_compute. repeat split; reflexivity. Qed.

(** ** [isActive] *)

Section IsActive_steps.

Context {E : Type}.
Variable router : call → store E → outcome value * store E.
Implicit Types (w : world E) (args : list value) (s : store E).

Lemma isActive_intent_Ok args w ra w1 v s :
  extractRouteArgs args w = (Ok ra, w1) →
  router (IsActiveIntent (routeName ra) (models ra) VNull) (st w1)
  = (Ok v, s) →
  isActive router args w =
    isActive_after_intent router ra v
      (World s
         (trace w1 ++ [IsActiveIntent (routeName ra) (models ra) VNull])).
Proof.
  intros Hra Hc. unfold isActive. rewrite (bind_Ok _ _ _ _ _ Hra).
  by rewrite (bind_Ok _ _ _ _ _ (invoke_Ok router _ w1 _ s Hc)).
Qed.

Lemma isActive_intent_Throw args w ra w1 e s :
  extractRouteArgs args w = (Ok ra, w1) →
  router (IsActiveIntent (routeName ra) (models ra) VNull) (st w1)
  = (Throw e, s) →
  isActive router args w =
    (Throw e,
     World s (trace w1 ++ [IsActiveIntent (routeName ra) (models ra) VNull])).
Proof.
  intros Hra Hc. unfold isActive. rewrite (bind_Ok _ _ _ _ _ Hra).
  by rewrite (bind_Throw _ _ _ _ _ (invoke_Throw router _ w1 _ s Hc)).
Qed.

Lemma own_keys_count_mapping (h : heap) v m :
  mapping_of h v = Some m → own_keys_count h v = Some (size m).
Proof.
  unfold mapping_of, deref, own_keys_count, is_plain.
  destruct v; try done. destruct (h !! l) as [[[xs|] ps]|]; try done.
  by intros [= ->].
Qed.

End IsActive_steps.

Section IsActive_facts.

Context {E : Type}.
Variable router : call → store E → outcome value * store E.
Implicit Types (w : world E) (args : list value) (s : store E).

Lemma extractRouteArgs_frame args w ra w1 :
  extractRouteArgs args w = (Ok ra, w1) →
  routeName ra = arg 0 args
  ∧ trace w1 = trace w
  ∧ nav (st w1) = nav (st w)
  ∧ ∀ l o, objects (st w) !! l = Some o → objects (st w1) !! l = Some o.
Proof.
  intros Hra.
  destruct (extractRouteArgs_total args w) as (ra' & w1' & Hra' & H).
  rewrite Hra in Hra'. by injection Hra' as <- <-.
Qed.

Lemma mapping_shallow_eq_spec (h : heap) (a b : gmap string value) :
  mapping_shallow_eq h a b = true ↔
  dom a = dom b
  ∧ ∀ k x y, a !! k = Some x → b !! k = Some y →
             value_shallow_eq h x y = true.
Proof.
  unfold mapping_shallow_eq.
  rewrite andb_true_iff, bool_decide_eq_true, forallb_forall.
  split; intros [Hdom Hall]; (split; [done |]).
  - intros k x y Ha Hb.
    assert (Hk : In k (elements (dom a))).
    { apply list_elem_of_In, elem_of_elements, elem_of_dom. eauto. }
    specialize (Hall k Hk). by rewrite Ha, Hb in Hall.
  - intros k Hk.
    apply list_elem_of_In, elem_of_elements in Hk.
    assert (Hkb : k ∈ dom b) by (by rewrite <- Hdom).
    apply elem_of_dom in Hk as [x Hx]. apply elem_of_dom in Hkb as [y Hy].
    rewrite Hx, Hy. simpl. eauto.
Qed.

End IsActive_facts.

(** C6.  When the structural check [isActiveIntent(routeName, models,
    null)] on the extracted request answers with a falsy value, [isActive]
    returns [false]; the structural check is the only call made, so neither
    the query-parameter preparation nor the current state's query
    parameters are consulted. *)
Theorem isActive_fails_closed {E}
    (router : call → store E → outcome value * store E)
    (args : list value) (w w1 : world E) (ra : RouteArgs)
    (v : value) (s : store E) :
  extractRouteArgs args w = (Ok ra, w1) →
  router (IsActiveIntent (routeName ra) (models ra) VNull) (st w1)
  = (Ok v, s) →
  truthy v = false →
  isActive router args w =
    (Ok (VBool false),
     World s (trace w ++ [IsActiveIntent (routeName ra) (models ra) VNull])).
Proof.
  intros Hra Hc Hv.
  rewrite (isActive_intent_Ok router args w ra w1 v s Hra Hc).
  destruct (extractRouteArgs_frame args w ra w1 Hra) as (_ & -> & _).
  unfold isActive_after_intent. by rewrite Hv.
Qed.

(** [isActive('about')] while at [blog.post]. *)
Lemma isActive_fails_closed_witness :
  isActive reference_router [VStr "about"] blog_world =
    (Ok (VBool false),
     World (Store (<[2%positive := plain ∅]> blog_heap) blog_nav)
       [IsActiveIntent (VStr "about") [] VNull]).
Proof.
  refine (isActive_fails_closed reference_router [VStr "about"] blog_world
            (World (Store (<[2%positive := plain ∅]> blog_heap) blog_nav) [])
            (mkRouteArgs (VStr "about") [] (VRef 2%positive))
            (VBool false) _ _ _ _);
    vm_compute; reflexivity.
Defined.

(** C7.  When the extracted query-parameter map is empty, [isActive]
    returns [true] exactly when the structural check succeeds: its result is
    the truth value of the check's answer, and the check is the only call
    made, so the current state's query parameters play no part. *)
Theorem isActive_without_query_params {E}
    (router : call → store E → outcome value * store E)
    (args : list value) (w w1 : world E) (ra : RouteArgs)
    (v : value) (s : store E) :
  extractRouteArgs args w = (Ok ra, w1) →
  router (IsActiveIntent (routeName ra) (models ra) VNull) (st w1)
  = (Ok v, s) →
  mapping_of (objects s) (queryParams ra) = Some ∅ →
  isActive router args w =
    (Ok (VBool (truthy v)),
     World s (trace w ++ [IsActiveIntent (routeName ra) (models ra) VNull])).
Proof.
  intros Hra Hc Hqp.
  rewrite (isActive_intent_Ok router args w ra w1 v s Hra Hc).
  destruct (extractRouteArgs_frame args w ra w1 Hra) as (_ & -> & _).
  unfold isActive_after_intent. destruct (truthy v); [| done]. simpl.
  unfold bind, get_heap. simpl.
  by rewrite (own_keys_count_mapping _ _ _ Hqp).
Qed.

(** [isActive('blog')] while at [blog.post], whatever the current query
    parameters are. *)
Lemma isActive_without_query_params_witness :
  isActive reference_router [VStr "blog"] blog_world =
    (Ok (VBool true),
     World (Store (<[2%positive := plain ∅]> blog_heap) blog_nav)
       [IsActiveIntent (VStr "blog") [] VNull]).
Proof.
  refine (isActive_without_query_params reference_router [VStr "blog"]
            blog_world
            (World (Store (<[2%positive := plain ∅]> blog_heap) blog_nav) [])
            (mkRouteArgs (VStr "blog") [] (VRef 2%positive))
            (VBool true) _ _ _ _);
    vm_compute; reflexivity.
Defined.

(** C2.  On a call with a non-empty query-parameter map for which the
    structural check succeeds, [isActive] has the map reconciled in place by
    [_prepareQueryParams(routeName, models, queryParams, true)], reads the
    current state's query parameters, and returns whether the two mappings
    are shallow-equal: it returns [true] iff the reconciled map and the
    current one have the same keys and, key by key, the same value under
    primitive/array-shallow comparison. *)
Theorem isActive_query_params_shallow_equal {E}
    (router : call → store E → outcome value * store E)
    (args : list value) (w w1 : world E) (ra : RouteArgs)
    (v r current : value) (s1 s2 s3 : store E)
    (supplied reconciled settled : gmap string value) :
  extractRouteArgs args w = (Ok ra, w1) →
  router (IsActiveIntent (routeName ra) (models ra) VNull) (st w1)
  = (Ok v, s1) →
  truthy v = true →
  mapping_of (objects s1) (queryParams ra) = Some supplied →
  supplied ≠ ∅ →
  router (PrepareQueryParams (routeName ra) (models ra) (queryParams ra) true)
    s1 = (Ok r, s2) →
  router StateQueryParams s2 = (Ok current, s3) →
  mapping_of (objects s3) (queryParams ra) = Some reconciled →
  mapping_of (objects s3) current = Some settled →
  ∃ b : bool,
    isActive router args w =
      (Ok (VBool b),
       World s3
         (trace w ++
            [IsActiveIntent (routeName ra) (models ra) VNull;
             PrepareQueryParams (routeName ra) (models ra) (queryParams ra)
               true;
             StateQueryParams]))
    ∧ (b = true ↔
       dom reconciled = dom settled
       ∧ ∀ k x y, reconciled !! k = Some x → settled !! k = Some y →
                  value_shallow_eq (objects s3) x y = true).
Proof.
  intros Hra Hc Hv Hsup Hne Hprep Hstate Hrec Hset.
  exists (mapping_shallow_eq (objects s3) reconciled settled).
  split; [| apply mapping_shallow_eq_spec].
  rewrite (isActive_intent_Ok router args w ra w1 v s1 Hra Hc).
  destruct (extractRouteArgs_frame args w ra w1 Hra) as (_ & -> & _).
  unfold isActive_after_intent. rewrite Hv. simpl.
  unfold bind at 1, get_heap at 1. cbn [st objects].
  rewrite (own_keys_count_mapping _ _ _ Hsup).
  unfold bind at 1, lift_option at 1, ret at 1.
  assert (Hsize : (0 < size supplied)%nat).
  { apply map_size_non_empty_iff in Hne. lia. }
  rewrite (bool_decide_eq_true_2 _ Hsize).
  unfold bind at 1. rewrite (invoke_Ok_at router _ _ _ _ _ Hprep).
  unfold bind at 1. rewrite (invoke_Ok_at router _ _ _ _ _ Hstate).
  unfold bind, get_heap, shallowEqual. cbn [st objects].
  rewrite Hrec, Hset. simpl. unfold ret. by rewrite <- !app_assoc.
Qed.

Lemma value_shallow_eq_refl (h : heap) (x : value) :
  value_shallow_eq h x x = true.
Proof.
  unfold value_shallow_eq, strict_eq.
  destruct (array_of h x); by apply bool_decide_eq_true.
Qed.

(** [isActive('blog.post', 7, { queryParams: { page: 2 } })] at
    [/blog/7?page=2&sort=asc]. *)
Lemma isActive_query_params_shallow_equal_witness :
  (isActive reference_router [VStr "blog.post"; VNum 7; VRef 3%positive]
     page2_world).1 = Ok (VBool true).
Proof.
  destruct (isActive_query_params_shallow_equal reference_router
              [VStr "blog.post"; VNum 7; VRef 3%positive]
              page2_world page2_world
              (mkRouteArgs (VStr "blog.post") [VNum 7] (VRef 2%positive))
              (VBool true) VUndefined (VRef 1%positive)
              (Store page2_heap blog_nav)
              (Store (<[2%positive :=
                          plain {[ "page" := VNum 2; "sort" := VStr "asc" ]}]>
                        page2_heap) blog_nav)
              (Store (<[2%positive :=
                          plain {[ "page" := VNum 2; "sort" := VStr "asc" ]}]>
                        page2_heap) blog_nav)
              {[ "page" := VNum 2 ]}
              {[ "page" := VNum 2; "sort" := VStr "asc" ]}
              {[ "page" := VNum 2; "sort" := VStr "asc" ]})
    as (b & Hrun & Hiff).
  - vm_compute. reflexivity.
  - vm_compute. reflexivity.
  - vm_compute. reflexivity.
  - vm_compute. reflexivity.
  - apply insert_non_empty.
  - vm_compute. reflexivity.
  - vm_compute. reflexivity.
  - vm_compute. reflexivity.
  - vm_compute. reflexivity.
  - rewrite Hrun. simpl. f_equal. f_equal. apply Hiff. split; [done |].
    intros k x y Hx Hy. rewrite Hx in Hy. injection Hy as <-.
    apply value_shallow_eq_refl.
Defined.

(** The same call with [page: 3]: the route matches, the query parameters
    do not. *)
Example isActive_other_page :
  (isActive reference_router [VStr "blog.post"; VNum 7; VRef 3%positive]
     (World (Store (<[2%positive := plain {[ "page" := VNum 3 ]}]> page2_heap)
               blog_nav) [])).1
  = Ok (VBool false).
Proof. evaluate. Qed.

(** ** The calls [isActive] makes *)

Section IsActive_calls.

Context {E : Type}.
Variable router : call → store E → outcome value * store E.
Implicit Types (w : world E) (args : list value) (s : store E).

Lemma isActive_after_intent_calls ra v w :
  ∃ cs r,
    cs `prefix_of`
      [PrepareQueryParams (routeName ra) (models ra) (queryParams ra) true;
       StateQueryParams]
    ∧ isActive_after_intent router ra v w
      = (r, World (run_calls router cs (st w)) (trace w ++ cs)).
Proof.
  set (P := PrepareQueryParams (routeName ra) (models ra) (queryParams ra)
              true).
  assert (H0 : [] `prefix_of` [P; StateQueryParams]) by apply prefix_nil.
  assert (H1 : [P] `prefix_of` [P; StateQueryParams])
    by (by exists [StateQueryParams]).
  assert (Hw : w = World (run_calls router [] (st w)) (trace w ++ []))
    by (rewrite app_nil_r; by destruct w).
  unfold isActive_after_intent. fold P.
  destruct (truthy v); simpl;
    [| exists [], (Ok (VBool false)); unfold ret; by rewrite <- Hw].
  unfold bind at 1, get_heap at 1.
  destruct (own_keys_count (objects (st w)) (queryParams ra)) as [n|];
    [| exists [], (Throw TypeError); split; [done |];
       unfold bind, lift_option, throw; by rewrite <- Hw].
  unfold bind at 1, lift_option at 1, ret at 1.
  destruct (bool_decide (0 < n)%nat);
    [| exists [], (Ok (VBool true)); unfold ret; by rewrite <- Hw].
  unfold bind at 1. rewrite invoke_run.
  destruct (router P (st w)) as [[r|e] s2] eqn:HP; cbn [fst snd];
    [| exists [P], (Throw e); split; [done |]; simpl; by rewrite HP].
  unfold bind at 1. rewrite invoke_run. cbn [st trace].
  assert (Hrun : run_calls router [P; StateQueryParams] (st w)
                 = (router StateQueryParams s2).2)
    by (simpl; by rewrite HP).
  destruct (router StateQueryParams s2) as [[current|e] s3] eqn:HS;
    cbn [fst snd] in *.
  - unfold bind, get_heap. cbn [st objects].
    destruct (shallowEqual (objects s3) (queryParams ra) current) as [b|];
      [exists [P; StateQueryParams], (Ok (VBool b))
      |exists [P; StateQueryParams], (Throw TypeError)];
      (split; [done |]); rewrite Hrun; simpl; unfold ret, throw;
      by rewrite <- app_assoc.
  - exists [P; StateQueryParams], (Throw e). split; [done |].
    rewrite Hrun. by rewrite <- app_assoc.
Qed.

(** [isActive] calls the structural check, then at most the preparation
    step and the read of the current query parameters, in this order; the
    store it leaves is the one these calls leave. *)
Lemma isActive_calls args w :
  ∃ ra w1 cs r,
    extractRouteArgs args w = (Ok ra, w1)
    ∧ cs `prefix_of`
        [PrepareQueryParams (routeName ra) (models ra) (queryParams ra) true;
         StateQueryParams]
    ∧ isActive router args w
      = (r,
         World
           (run_calls router
              (IsActiveIntent (routeName ra) (models ra) VNull :: cs) (st w1))
           (trace w ++ IsActiveIntent (routeName ra) (models ra) VNull :: cs)).
Proof.
  destruct (extractRouteArgs_total args w) as (ra & w1 & Hra & _ & Htr & _).
  exists ra, w1.
  set (I := IsActiveIntent (routeName ra) (models ra) VNull).
  destruct (router I (st w1)) as [[v|e] s] eqn:HI.
  - rewrite (isActive_intent_Ok router args w ra w1 v s Hra HI). fold I.
    destruct (isActive_after_intent_calls ra v (World s (trace w1 ++ [I])))
      as (cs & r & Hpre & ->).
    exists cs, r. split; [done |]. split; [done |].
    simpl. rewrite HI, Htr. by rewrite <- app_assoc.
  - rewrite (isActive_intent_Throw router args w ra w1 e s Hra HI). fold I.
    exists [], (Throw e). split; [done |]. split; [apply prefix_nil |].
    simpl. by rewrite HI, Htr.
Qed.

End IsActive_calls.

Lemma prefix_of_query_param_calls (P : call) (cs : list call) :
  cs `prefix_of` [P; StateQueryParams] →
  cs = [] ∨ cs = [P] ∨ cs = [P; StateQueryParams].
Proof.
  intros [k Hk].
  destruct cs as [|c1 [|c2 [|c3 cs]]]; simplify_eq/=; auto.
Qed.

Section Route_name_only.

Context {E : Type}.
Variables router router' : call → store E → outcome value * store E.
Implicit Types (w : world E) (args : list value) (s : store E).

Lemma extractRouteArgs_rename args (name' : value) w ra w1 :
  extractRouteArgs args w = (Ok ra, w1) →
  extractRouteArgs (name' :: tail args) w
  = (Ok (mkRouteArgs name' (models ra) (queryParams ra)), w1).
Proof.
  intros Hra.
  destruct (is_options_hash (objects (st w))
              (default VUndefined (last (tail args)))) eqn:H.
  - rewrite (extractRouteArgs_options args w H) in Hra.
    rewrite (extractRouteArgs_options (name' :: tail args) w H).
    by injection Hra as <- <-.
  - rewrite (extractRouteArgs_no_options args w H) in Hra.
    rewrite (extractRouteArgs_no_options (name' :: tail args) w H).
    by injection Hra as <- <-.
Qed.

(** With two routers of which the second does under [name'] what the first
    does under [name], what is left of [isActive] after the structural check
    gives the same result and the same store for both names. *)
Lemma isActive_after_intent_rename (name name' : value) ms qp v s tr tr' :
  (∀ c s, router' (with_route_name name' c) s
          = router (with_route_name name c) s) →
  (isActive_after_intent router' (mkRouteArgs name' ms qp) v (World s tr')).1
  = (isActive_after_intent router (mkRouteArgs name ms qp) v (World s tr)).1
  ∧ st (isActive_after_intent router' (mkRouteArgs name' ms qp) v
          (World s tr')).2
    = st (isActive_after_intent router (mkRouteArgs name ms qp) v
            (World s tr)).2.
Proof.
  intros H.
  pose proof (H (PrepareQueryParams VUndefined ms qp true)) as HP.
  pose proof (H StateQueryParams) as HS. simpl in HP, HS.
  unfold isActive_after_intent, bind, get_heap, lift_option, ret, throw,
    invoke.
  destruct (truthy v); [| done]. simpl.
  destruct (own_keys_count (objects s) qp) as [n|]; [| done]. simpl.
  destruct (bool_decide (0 < n)%nat); [| done]. simpl.
  rewrite HP.
  destruct (router (PrepareQueryParams name ms qp true) s) as [[r|e] s2];
    [| done].
  simpl. rewrite HS.
  destruct (router StateQueryParams s2) as [[current|e] s3]; [| done].
  simpl.
  by destruct (shallowEqual (objects s3) qp current).
Qed.

Lemma isActive_rename args (name' : value) w :
  (∀ c s, router' (with_route_name name' c) s
          = router (with_route_name (arg 0 args) c) s) →
  (isActive router' (name' :: tail args) w).1 = (isActive router args w).1
  ∧ st (isActive router' (name' :: tail args) w).2
    = st (isActive router args w).2.
Proof.
  intros H.
  destruct (extractRouteArgs_total args w) as (ra & w1 & Hra & Hname & _).
  pose proof (extractRouteArgs_rename args name' w ra w1 Hra) as Hra'.
  pose proof (H (IsActiveIntent VUndefined (models ra) VNull) (st w1)) as HI.
  simpl in HI. rewrite <- Hname in HI, H.
  destruct (router (IsActiveIntent (routeName ra) (models ra) VNull) (st w1))
    as [[v|e] s] eqn:Hc.
  - rewrite (isActive_intent_Ok router args w ra w1 v s Hra Hc).
    rewrite (isActive_intent_Ok router' (name' :: tail args) w _ w1 v s
               Hra' HI).
    destruct ra as [name ms qp]. by apply isActive_after_intent_rename.
  - rewrite (isActive_intent_Throw router args w ra w1 e s Hra Hc).
    by rewrite (isActive_intent_Throw router' (name' :: tail args) w _ w1 e s
                  Hra' HI).
Qed.

End Route_name_only.

(** C8.  Only [transitionTo] classifies its first argument.  [urlFor]
    hands its whole argument list to [generate] and returns what it
    returns.  [isActive] hands its first argument, as the route name, to
    the structural check and to the query-parameter preparation, and never
    calls the URL-based transition primitive.  Its result and the store it
    leaves depend on the first argument through these calls only: if a
    router does under another first argument what this router does under
    this one, [isActive] on the other argument gives the same result and
    the same store, whether or not either argument begins with [/], [#] or
    [//]. *)
Theorem url_classification_only_in_transitionTo {E}
    (router : call → store E → outcome value * store E)
    (args : list value) (w : world E) :
  urlFor router args w =
    ((router (Generate args) (st w)).1,
     World (router (Generate args) (st w)).2 (trace w ++ [Generate args]))
  ∧ (∃ ra w1 cs r,
      extractRouteArgs args w = (Ok ra, w1)
      ∧ cs `prefix_of`
          [PrepareQueryParams (arg 0 args) (models ra) (queryParams ra) true;
           StateQueryParams]
      ∧ isActive router args w =
          (r,
           World
             (run_calls router
                (IsActiveIntent (arg 0 args) (models ra) VNull :: cs) (st w1))
             (trace w ++ IsActiveIntent (arg 0 args) (models ra) VNull :: cs))
      ∧ Forall (λ c, is_url_call c = false)
          (Generate args
             :: IsActiveIntent (arg 0 args) (models ra) VNull :: cs))
  ∧ ∀ (router' : call → store E → outcome value * store E) (name' : value),
      (∀ c s, router' (with_route_name name' c) s
              = router (with_route_name (arg 0 args) c) s) →
      (isActive router' (name' :: tail args) w).1
      = (isActive router args w).1
      ∧ st (isActive router' (name' :: tail args) w).2
        = st (isActive router args w).2.
Proof.
  split; [apply invoke_run |]. split; [| intros; by apply isActive_rename].
  destruct (isActive_calls router args w)
    as (ra & w1 & cs & r & Hra & Hpre & Hrun).
  destruct (extractRouteArgs_frame args w ra w1 Hra) as (Hname & _).
  rewrite Hname in Hpre, Hrun.
  exists ra, w1, cs, r. repeat (split; [done |]).
  destruct (prefix_of_query_param_calls _ _ Hpre) as [-> | [-> | ->]];
    repeat constructor.
Qed.

(** A router that knows the route [blog] under the name [/blog]:
    [isActive('/blog')] on it is [isActive('blog')] on the reference router,
    [true] at [blog.post]. *)
Lemma url_classification_only_in_transitionTo_witness :
  resemblesURL (VStr "/blog") = true
  ∧ (isActive (λ c, reference_router (with_route_name (VStr "blog") c))
       [VStr "/blog"] blog_world).1 = Ok (VBool true).
Proof.
  split; [reflexivity |].
  destruct (proj2 (proj2 (url_classification_only_in_transitionTo
                            reference_router [VStr "blog"] blog_world))
              (λ c, reference_router (with_route_name (VStr "blog") c))
              (VStr "/blog")) as [Hres _].
  - intros c s. destruct c; reflexivity.
  - simpl tail in Hres. rewrite Hres. vm_compute. reflexivity.
Defined.

(** [isActive('/blog')] and [urlFor('/blog')]: the path is taken for a route
    name. *)
Example isActive_url_like_name :
  (isActive reference_router [VStr "/blog"] blog_world).1 = Ok (VBool false)
  ∧ trace (isActive reference_router [VStr "/blog"] blog_world).2
    = [IsActiveIntent (VStr "/blog") [] VNull]
  ∧ trace (urlFor reference_router [VStr "/blog"] blog_world).2
    = [Generate [VStr "/blog"]].
Proof. vm_compute. repeat split; reflexivity. Qed.

(** ** What [isActive] changes *)

Lemma reference_router_prepare_frame name ms qp from (s : store NavState) :
  nav (reference_router (PrepareQueryParams name ms qp from) s).2 = nav s
  ∧ ∀ l, qp ≠ VRef l →
         objects (reference_router (PrepareQueryParams name ms qp from) s).2
           !! l = objects s !! l.
Proof.
  simpl. unfold prepareQueryParams.
  destruct qp as [| | | | | |lq]; try done.
  destruct (mapping_of (objects s) (VRef lq)); [| done].
  simpl. split; [done |]. intros l Hne.
  rewrite lookup_insert_ne; congruence.
Qed.

(** C3, as the code has it.  [isActive] creates no Transition and writes
    nothing itself: its calls are the structural check and then at most the
    query-parameter preparation, which is handed the extracted map itself,
    and the read of the current query parameters; the store it leaves is
    the one these calls leave.  With collaborators that only read, except
    that [_prepareQueryParams] rewrites the mapping it is handed, the
    navigational state and every object other than the caller's
    query-parameter map are left as they were; the caller's map, too, when
    the preparation step is not reached. *)
Theorem isActive_frame {E}
    (router : call → store E → outcome value * store E)
    (args : list value) (w : world E) :
  (∀ name ms r s, (router (IsActiveIntent name ms r) s).2 = s) →
  (∀ s, (router StateQueryParams s).2 = s) →
  (∀ name ms qp from s,
     nav (router (PrepareQueryParams name ms qp from) s).2 = nav s
     ∧ ∀ l, qp ≠ VRef l →
            objects (router (PrepareQueryParams name ms qp from) s).2 !! l
            = objects s !! l) →
  ∃ ra w1 cs,
    extractRouteArgs args w = (Ok ra, w1)
    ∧ cs `prefix_of`
        [PrepareQueryParams (routeName ra) (models ra) (queryParams ra) true;
         StateQueryParams]
    ∧ trace (isActive router args w).2
      = trace w ++ IsActiveIntent (routeName ra) (models ra) VNull :: cs
    ∧ Forall (λ c, is_transition_call c = false)
        (IsActiveIntent (routeName ra) (models ra) VNull :: cs)
    ∧ st (isActive router args w).2
      = run_calls router
          (IsActiveIntent (routeName ra) (models ra) VNull :: cs) (st w1)
    ∧ nav (st (isActive router args w).2) = nav (st w)
    ∧ (∀ l o, objects (st w) !! l = Some o → queryParams ra ≠ VRef l →
              objects (st (isActive router args w).2) !! l = Some o)
    ∧ (cs = [] →
       ∀ l o, objects (st w) !! l = Some o →
              objects (st (isActive router args w).2) !! l = Some o).
Proof.
  intros Hintent Hstate Hprep.
  destruct (isActive_calls router args w)
    as (ra & w1 & cs & r & Hra & Hpre & Hrun).
  destruct (extractRouteArgs_frame args w ra w1 Hra)
    as (_ & _ & Hnav & Hobj).
  exists ra, w1, cs.
  split; [done |]. split; [done |]. rewrite Hrun. cbn [snd st trace].
  split; [done |].
  set (P := PrepareQueryParams (routeName ra) (models ra) (queryParams ra)
              true) in *.
  destruct (Hprep (routeName ra) (models ra) (queryParams ra) true (st w1))
    as [HPnav HPobj]. fold P in HPnav, HPobj.
  split.
  { destruct (prefix_of_query_param_calls _ _ Hpre) as [-> | [-> | ->]];
      repeat constructor. }
  split; [done |].
  destruct (prefix_of_query_param_calls _ _ Hpre) as [-> | [-> | ->]];
    cbn [run_calls fold_left]; rewrite Hintent, ?Hstate.
  - split; [done |]. split; [| intros _]; eauto.
  - split; [congruence |]. split; [| done].
    intros l o Hl Hne. rewrite (HPobj l Hne). eauto.
  - split; [congruence |]. split; [| done].
    intros l o Hl Hne. rewrite (HPobj l Hne). eauto.
Qed.

(** [isActive('blog.post', 7, { queryParams: { page: 2 } })] at
    [/blog/7?page=2&sort=asc]: the navigational state and the current
    query parameters are left alone. *)
Lemma isActive_frame_witness :
  nav (st (isActive reference_router
             [VStr "blog.post"; VNum 7; VRef 3%positive] page2_world).2)
  = blog_nav
  ∧ objects (st (isActive reference_router
                   [VStr "blog.post"; VNum 7; VRef 3%positive]
                   page2_world).2) !! 1%positive
    = Some (plain {[ "page" := VNum 2; "sort" := VStr "asc" ]}).
Proof.
  destruct (isActive_frame reference_router
              [VStr "blog.post"; VNum 7; VRef 3%positive] page2_world)
    as (ra & w1 & cs & Hra & _ & _ & _ & _ & Hnav & Hobj & _).
  - intros. reflexivity.
  - intros. reflexivity.
  - apply reference_router_prepare_frame.
  - split; [exact Hnav |]. apply Hobj; [vm_compute; reflexivity |].
    vm_compute in Hra. injection Hra as <- _. discriminate.
Defined.

(** C3, as stated, fails: [isActive('blog.post', 7, { queryParams: { page: 2
    } })] at [/blog/7?page=2&sort=asc] leaves the caller's map as
    [{ page: 2, sort: 'asc' }]. *)
Lemma isActive_rewrites_supplied_query_params :
  mapping_of (objects (st page2_world)) (VRef 2%positive)
  = Some {[ "page" := VNum 2 ]}
  ∧ mapping_of
      (objects (st (isActive reference_router
                      [VStr "blog.post"; VNum 7; VRef 3%positive]
                      page2_world).2)) (VRef 2%positive)
    = Some {[ "page" := VNum 2; "sort" := VStr "asc" ]}
  ∧ objects (st (isActive reference_router
                   [VStr "blog.post"; VNum 7; VRef 3%positive]
                   page2_world).2) !! 2%positive
    ≠ objects (st page2_world) !! 2%positive.
Proof.
  split; [vm_compute; reflexivity |]. split; [vm_compute; reflexivity |].
  vm_compute. discriminate.
Qed.

(** ** [urlFor] *)

Lemma string_app_assoc (a b c : string) :
  ((a ++ b) ++ c)%string = (a ++ b ++ c)%string.
Proof.
  induction a as [|x a IH]; [done |].
  change (String x ((a ++ b) ++ c) = String x (a ++ b ++ c))%string.
  by rewrite IH.
Qed.

Lemma string_app_empty_r (a : string) : (a ++ "")%string = a.
Proof.
  induction a as [|x a IH]; [done |].
  change (String x (a ++ "") = String x a)%string. by rewrite IH.
Qed.

Lemma occurs_in_refl (p : string) : occurs_in p p.
Proof. exists "", "". by rewrite string_app_empty_r. Qed.

Lemma occurs_in_prepend (p s t : string) :
  occurs_in p s → occurs_in p (t ++ s)%string.
Proof.
  intros (pre & post & ->). exists (t ++ pre)%string, post.
  by rewrite string_app_assoc.
Qed.

Lemma occurs_in_append (p s t : string) :
  occurs_in p s → occurs_in p (s ++ t)%string.
Proof.
  intros (pre & post & ->). exists pre, (post ++ t)%string.
  by rewrite !string_app_assoc.
Qed.

Lemma occurs_in_join (sep x : string) (l : list string) :
  x ∈ l → occurs_in x (join sep l).
Proof.
  induction l as [|y l IH]; [by intros ?%elem_of_nil |].
  intros [-> | Hx]%elem_of_cons.
  - destruct l; [apply occurs_in_refl |].
    simpl. apply occurs_in_append, occurs_in_refl.
  - destruct l as [|z l]; [by apply elem_of_nil in Hx |].
    change (join sep (y :: z :: l))
      with (y ++ sep ++ join sep (z :: l))%string.
    by apply occurs_in_prepend, occurs_in_prepend, IH.
Qed.

Lemma elem_of_emitted (m : gmap string value) (k : string) (v : value) :
  (k, v) ∈ emitted m ↔ m !! k = Some v ∧ v ≠ DEFAULT_VALUE.
Proof.
  unfold emitted. rewrite list_elem_of_In, filter_In, <- list_elem_of_In.
  rewrite elem_of_map_to_list. unfold is_default. simpl.
  by rewrite negb_true_iff, bool_decide_eq_false.
Qed.

Lemma occurs_in_query_string (m : gmap string value) k v :
  m !! k = Some v → v ≠ DEFAULT_VALUE →
  occurs_in (k ++ "=" ++ serialize v)%string (query_string m).
Proof.
  intros Hk Hv.
  assert (Hin : (k, v) ∈ emitted m) by (by apply elem_of_emitted).
  unfold query_string. destruct (emitted m) as [|p ps] eqn:Hps.
  - by apply elem_of_nil in Hin.
  - apply occurs_in_prepend, occurs_in_join.
    by apply (list_elem_of_fmap_2 render _ (k, v)).
Qed.

Lemma join_concat (sep : string) (l : list string) :
  join sep l = String.concat sep l.
Proof.
  induction l as [|x [|y l] IH]; [done | done |].
  change (x ++ sep ++ join sep (y :: l)
          = x ++ sep ++ String.concat sep (y :: l))%string.
  by rewrite IH.
Qed.

Lemma NoDup_emitted (m : gmap string value) : NoDup (emitted m).
Proof.
  unfold emitted. apply NoDup_ListNoDup, List.NoDup_filter, NoDup_ListNoDup.
  apply NoDup_map_to_list.
Qed.

(** C9.  [urlFor] is [generate] on the unmodified argument list: whatever
    the router, the one call made is [generate(...arguments)] and its
    result, exception and store are those of [urlFor].  With [generate] as
    the specification describes it, and an options hash with [queryParams]
    as last argument, the URL is the path of the route followed by
    [?key=value&...] for the parameters of [queryParams] whose value is not
    the reserved "use default" value, each of them once and no others,
    whatever the defaults of the route are: every such key appears in the
    URL as [key=value], and a key whose value is the reserved value is left
    out of it. *)
Theorem urlFor_generate :
  (∀ E (router : call → store E → outcome value * store E)
     (args : list value) (w : world E),
     urlFor router args w =
       ((router (Generate args) (st w)).1,
        World (router (Generate args) (st w)).2 (trace w ++ [Generate args])))
  ∧ ∀ (w : world NavState) (name : value) (ms : list value) (lo : loc)
      (qp : value) (options params : gmap string value),
      mapping_of (objects (st w)) (VRef lo) = Some options →
      options !! "queryParams" = Some qp →
      mapping_of (objects (st w)) qp = Some params →
      ∃ (url : string) (pairs : list (string * value)),
        urlFor reference_router (name :: ms ++ [VRef lo]) w =
          (Ok (VStr url),
           World (st w) (trace w ++ [Generate (name :: ms ++ [VRef lo])]))
        ∧ NoDup pairs
        ∧ (∀ k v, (k, v) ∈ pairs ↔
                  params !! k = Some v ∧ v ≠ DEFAULT_VALUE)
        ∧ url =
            (route_path (nav (st w)) name ms
             ++ match pairs with
                | [] => ""
                | _ =>
                    "?" ++ String.concat "&"
                             ((λ kv, kv.1 ++ "=" ++ serialize kv.2) <$> pairs)
                end)%string
        ∧ (∀ k v, params !! k = Some v → v ≠ DEFAULT_VALUE →
                  occurs_in (k ++ "=" ++ serialize v)%string url).
Proof.
  split; [intros; apply invoke_run |].
  intros w name ms lo qp options params Hopt Hqp Hparams.
  exists (route_path (nav (st w)) name ms ++ query_string params)%string,
         (emitted params).
  split.
  - unfold urlFor. rewrite invoke_run. simpl. unfold generate. simpl.
    rewrite last_snoc. simpl.
    assert (Hhash : is_options_hash (objects (st w)) (VRef lo) = true)
      by (apply is_options_hash_spec; eauto).
    rewrite Hhash, removelast_last.
    assert (Hget : get_prop (objects (st w)) (VRef lo) "queryParams" = qp).
    { unfold mapping_of in Hopt. unfold get_prop.
      destruct (deref (objects (st w)) (VRef lo)) as [o|]; [| done].
      destruct (is_plain o); [| done]. injection Hopt as ->.
      by rewrite Hqp. }
    rewrite Hget, Hparams. by destruct w as [[h n] tr].
  - split; [apply NoDup_emitted |]. split; [apply elem_of_emitted |]. split.
    + unfold query_string. destruct (emitted params) as [|p ps]; [done |].
      by rewrite join_concat.
    + intros k v Hk Hv. by apply occurs_in_prepend, occurs_in_query_string.
Qed.

(** [urlFor('index', { queryParams: { page: 0, sort: DEFAULT_VALUE } })],
    where [0] is the default of [page]: the URL is [/?page=0]. *)
Lemma urlFor_generate_witness :
  (urlFor reference_router [VStr "index"; VRef 3%positive]
     (World
        (Store
           (<[2%positive :=
                plain {[ "page" := VNum 0; "sort" := DEFAULT_VALUE ]}]>
              page2_heap) blog_nav) [])).1
  = Ok (VStr "/?page=0")
  ∧ occurs_in "page=0" "/?page=0".
Proof.
  destruct (proj2 urlFor_generate
              (World
                 (Store
                    (<[2%positive :=
                         plain {[ "page" := VNum 0;
                                  "sort" := DEFAULT_VALUE ]}]>
                       page2_heap) blog_nav) [])
              (VStr "index") [] 3%positive (VRef 2%positive)
              {[ "queryParams" := VRef 2%positive ]}
              {[ "page" := VNum 0; "sort" := DEFAULT_VALUE ]})
    as (url & pairs & Hrun & _ & _ & _ & Hocc).
  - vm_compute. reflexivity.
  - vm_compute. reflexivity.
  - vm_compute. reflexivity.
  - assert (Hu : url = "/?page=0").
    { vm_compute in Hrun. by injection Hrun as <-. }
    split.
    + change ([VStr "index"; VRef 3%positive])
        with (VStr "index" :: [] ++ [VRef 3%positive]).
      rewrite Hrun, Hu. reflexivity.
    + rewrite <- Hu. apply (Hocc "page" (VNum 0)); [vm_compute; reflexivity |].
      discriminate.
Defined.

(** [urlFor('index', { queryParams: { page: DEFAULT_VALUE } })]. *)
Example urlFor_default_value :
  (urlFor reference_router [VStr "index"; VRef 3%positive]
     (World (Store (<[2%positive := plain {[ "page" := DEFAULT_VALUE ]}]>
                      page2_heap) blog_nav) [])).1
  = Ok (VStr "/").
Proof. evaluate. Qed.

(** * Further properties of the service *)

(** ** A URL takes no models and no query parameters *)

(** X1.  When the first argument resembles a URL, [transitionTo] and
    [replaceWith] look at nothing else: whatever follows the URL (models,
    an options hash) is dropped, and the call behaves as the call with the
    URL alone (lines 135-137 and 165). *)
Theorem transitionTo_url_ignores_rest {E}
    (router : call → store E → outcome value * store E)
    (url : value) (rest : list value) (w : world E) :
  resemblesURL url = true →
  transitionTo router (url :: rest) w = transitionTo router [url] w
  ∧ replaceWith router (url :: rest) w = replaceWith router [url] w.
Proof.
  intros Hurl.
  assert (H : transitionTo router (url :: rest) w
              = transitionTo router [url] w)
    by (by rewrite !transitionTo_url).
  split; [done |]. unfold replaceWith, bind. by rewrite H.
Qed.

(** [transitionTo('/blog', 7, { queryParams: { page: 2 } })]. *)
Lemma transitionTo_url_ignores_rest_witness :
  transitionTo reference_router
    [VStr "/blog"; VNum 7; VRef 3%positive] page2_world
  = transitionTo reference_router [VStr "/blog"] page2_world.
Proof.
  apply (transitionTo_url_ignores_rest reference_router (VStr "/blog")
           [VNum 7; VRef 3%positive] page2_world).
  vm_compute. reflexivity.
Defined.

(** X2.  On a URL the service writes nothing: the Transition that
    [_doURLTransition] hands back is returned by [transitionTo] as it is,
    in the store the primitive left, so its [_keepDefaultQueryParamValues]
    is whatever the primitive left (the flag of line 142 is set on the
    name-based branch only).  [replaceWith] returns the same Transition and
    changes its method and nothing else: every other property of it, every
    other object and the navigational state are as the primitive left
    them, and [_doURLTransition] is the only call made. *)
Theorem url_transition_not_marked {E}
    (router : call → store E → outcome value * store E)
    (args : list value) (w : world E) (l : loc) (o : obj) (s : store E) :
  resemblesURL (arg 0 args) = true →
  router (DoURLTransition "transitionTo" (arg 0 args)) (st w)
  = (Ok (VRef l), s) →
  objects s !! l = Some o →
  transitionTo router args w =
    (Ok (VRef l),
     World s (trace w ++ [DoURLTransition "transitionTo" (arg 0 args)]))
  ∧ replaceWith router args w =
      (Ok (VRef l),
       World
         (Store
            (<[l := Obj (elems o) (<["method" := VStr "replace"]> (props o))]>
               (objects s))
            (nav s))
         (trace w ++ [DoURLTransition "transitionTo" (arg 0 args)]))
  ∧ get_prop (objects (st (replaceWith router args w).2)) (VRef l)
      "_keepDefaultQueryParamValues"
    = get_prop (objects s) (VRef l) "_keepDefaultQueryParamValues"
  ∧ get_prop (objects (st (replaceWith router args w).2)) (VRef l) "method"
    = VStr "replace".
Proof.
  intros Hurl Hc Ho.
  assert (Ht : transitionTo router args w =
                 (Ok (VRef l),
                  World s (trace w ++
                             [DoURLTransition "transitionTo" (arg 0 args)])))
    by (rewrite transitionTo_url; [by apply invoke_Ok | done]).
  split; [done |].
  assert (Hr : replaceWith router args w =
                 (Ok (VRef l),
                  World
                    (Store
                       (<[l := Obj (elems o)
                                 (<["method" := VStr "replace"]> (props o))]>
                          (objects s))
                       (nav s))
                    (trace w ++
                       [DoURLTransition "transitionTo" (arg 0 args)]))).
  { unfold replaceWith. rewrite (bind_Ok _ _ _ _ _ Ht).
    unfold Transition_method, bind. rewrite set_prop_run. cbn [st objects].
    by rewrite (store_prop_object _ _ _ _ _ Ho). }
  split; [done |]. rewrite Hr.
  unfold get_prop. cbn [snd st objects deref].
  rewrite lookup_insert_eq, Ho. cbn [props].
  rewrite lookup_insert_ne; [| done]. by rewrite lookup_insert_eq.
Qed.

(** [replaceWith('/blog')]: the Transition keeps its [kind] and [url],
    gets the method ["replace"] and no [_keepDefaultQueryParamValues]. *)
Lemma url_transition_not_marked_witness :
  replaceWith reference_router [VStr "/blog"] blog_world =
    (Ok (VRef 2%positive),
     World
       (Store
          (<[2%positive :=
               plain {[ "kind" := VStr "transitionTo"; "url" := VStr "/blog";
                        "method" := VStr "replace" ]}]> blog_heap)
          blog_nav)
       [DoURLTransition "transitionTo" (VStr "/blog")])
  ∧ get_prop
      (objects (st (replaceWith reference_router [VStr "/blog"]
                      blog_world).2)) (VRef 2%positive)
      "_keepDefaultQueryParamValues" = VUndefined.
Proof.
  destruct (url_transition_not_marked reference_router [VStr "/blog"]
              blog_world 2%positive
              (plain {[ "kind" := VStr "transitionTo";
                        "url" := VStr "/blog" ]})
              (Store (<[2%positive :=
                          plain {[ "kind" := VStr "transitionTo";
                                   "url" := VStr "/blog" ]}]> blog_heap)
                 blog_nav))
    as (_ & Hrun & Hflag & _).
  - vm_compute. reflexivity.
  - vm_compute. reflexivity.
  - vm_compute. reflexivity.
  - split.
    + rewrite Hrun. vm_compute. reflexivity.
    + rewrite Hflag. vm_compute. reflexivity.
Defined.

(** X3.  On a name-based call [replaceWith] returns the Transition of
    [_doTransition] carrying both marks: [_keepDefaultQueryParamValues] set
    by [transitionTo] (line 142) and the method ["replace"] (line 165);
    [_doTransition] is the only call made. *)
Theorem replaceWith_named_marks {E}
    (router : call → store E → outcome value * store E)
    (args : list value) (w w1 : world E) (ra : RouteArgs)
    (l : loc) (o : obj) (s : store E) :
  resemblesURL (arg 0 args) = false →
  extractRouteArgs args w = (Ok ra, w1) →
  router (DoTransition (routeName ra) (models ra) (queryParams ra) true)
    (st w1) = (Ok (VRef l), s) →
  objects s !! l = Some o →
  ∃ w',
    replaceWith router args w = (Ok (VRef l), w')
    ∧ get_prop (objects (st w')) (VRef l) "_keepDefaultQueryParamValues"
      = VBool true
    ∧ get_prop (objects (st w')) (VRef l) "method" = VStr "replace"
    ∧ trace w'
      = trace w
        ++ [DoTransition (routeName ra) (models ra) (queryParams ra) true].
Proof.
  intros Hurl Hra Hc Ho.
  destruct (extractRouteArgs_frame args w ra w1 Hra) as (_ & Htr & _).
  unfold replaceWith.
  rewrite (bind_Ok (transitionTo router args) _ w (VRef l)
             (World
                (Store
                   (<[l := Obj (elems o)
                             (<["_keepDefaultQueryParamValues" := VBool true]>
                                (props o))]> (objects s)) (nav s))
                (trace w1 ++
                   [DoTransition (routeName ra) (models ra) (queryParams ra)
                      true]))).
  - unfold Transition_method, bind. rewrite set_prop_run. cbn [st objects].
    erewrite store_prop_object; [| apply lookup_insert_eq].
    eexists. split; [done |].
    unfold get_prop. cbn [st objects trace deref elems props].
    rewrite !lookup_insert_eq. cbn [props].
    rewrite lookup_insert_ne; [| done]. rewrite !lookup_insert_eq.
    by rewrite Htr.
  - rewrite (transitionTo_named router args w ra w1 Hurl Hra).
    rewrite (bind_Ok _ _ _ _ _ (invoke_Ok router _ w1 _ s Hc)).
    unfold bind. rewrite set_prop_run. cbn [st objects nav trace].
    by rewrite (store_prop_object _ _ _ _ _ Ho).
Qed.

Lemma replaceWith_named_marks_witness :
  ∃ w',
    replaceWith reference_router [VStr "blog.post"; VNum 7; VRef 3%positive]
      page2_world = (Ok (VRef 4%positive), w')
    ∧ get_prop (objects (st w')) (VRef 4%positive)
        "_keepDefaultQueryParamValues" = VBool true
    ∧ get_prop (objects (st w')) (VRef 4%positive) "method"
      = VStr "replace".
Proof.
  destruct (replaceWith_named_marks reference_router
              [VStr "blog.post"; VNum 7; VRef 3%positive]
              page2_world page2_world
              (mkRouteArgs (VStr "blog.post") [VNum 7] (VRef 2%positive))
              4%positive
              (plain {[ "targetName" := VStr "blog.post";
                        "queryParams" := VRef 2%positive ]})
              (Store (<[4%positive :=
                          plain {[ "targetName" := VStr "blog.post";
                                   "queryParams" := VRef 2%positive ]}]>
                        page2_heap) blog_nav))
    as (w' & H1 & H2 & H3 & _).
  - vm_compute. reflexivity.
  - vm_compute. reflexivity.
  - vm_compute. reflexivity.
  - vm_compute. reflexivity.
  - exists w'. repeat split; assumption.
Defined.

(** ** Errors and edge cases of [isActive] *)

Section IsActive_outcomes.

Context {E : Type}.
Variable router : call → store E → outcome value * store E.
Implicit Types (w : world E) (args : list value) (s : store E).

Lemma isActive_after_intent_boolean ra v w r w' :
  isActive_after_intent router ra v w = (Ok r, w') → ∃ b, r = VBool b.
Proof.
  unfold isActive_after_intent, bind, get_heap, lift_option, ret, throw,
    invoke.
  repeat (case_match; simplify_eq/=); intros; simplify_eq; eauto.
Qed.

End IsActive_outcomes.

(** X4.  Whenever [isActive] returns, it returns [true] or [false]: the answer
    of the structural check is only tested (line 255), never handed back,
    whatever kind of value it is. *)
Theorem isActive_returns_boolean {E}
    (router : call → store E → outcome value * store E)
    (args : list value) (w w' : world E) (r : value) :
  isActive router args w = (Ok r, w') → ∃ b, r = VBool b.
Proof.
  destruct (extractRouteArgs_total args w) as (ra & w1 & Hra & _).
  destruct (router (IsActiveIntent (routeName ra) (models ra) VNull) (st w1))
    as [[v|e] s] eqn:Hc.
  - rewrite (isActive_intent_Ok router args w ra w1 v s Hra Hc).
    apply isActive_after_intent_boolean.
  - by rewrite (isActive_intent_Throw router args w ra w1 e s Hra Hc).
Qed.

Lemma isActive_returns_boolean_witness :
  ∃ b,
    VBool true = VBool b
    ∧ (isActive reference_router [VStr "blog"] blog_world).1
      = Ok (VBool b).
Proof.
  destruct (isActive_returns_boolean reference_router [VStr "blog"]
              blog_world
              (isActive reference_router [VStr "blog"] blog_world).2
              (VBool true)) as [b Hb].
  - vm_compute. reflexivity.
  - exists b. split; [exact Hb |]. rewrite <- Hb. vm_compute. reflexivity.
Defined.

(** X5.  An options hash whose [queryParams] is [null] or [undefined]: when the
    structural check fails [isActive] returns [false]; when it succeeds
    [Object.keys(queryParams)] (line 258) throws a [TypeError].  Either way
    the structural check is the only call made. *)
Theorem isActive_null_query_params {E}
    (router : call → store E → outcome value * store E)
    (args : list value) (w w1 : world E) (ra : RouteArgs)
    (v : value) (s : store E) :
  extractRouteArgs args w = (Ok ra, w1) →
  router (IsActiveIntent (routeName ra) (models ra) VNull) (st w1)
  = (Ok v, s) →
  queryParams ra = VNull ∨ queryParams ra = VUndefined →
  isActive router args w =
    (if truthy v then Throw TypeError else Ok (VBool false),
     World s (trace w ++ [IsActiveIntent (routeName ra) (models ra) VNull])).
Proof.
  intros Hra Hc Hqp.
  rewrite (isActive_intent_Ok router args w ra w1 v s Hra Hc).
  destruct (extractRouteArgs_frame args w ra w1 Hra) as (_ & -> & _).
  unfold isActive_after_intent. destruct (truthy v); [| done]. simpl.
  unfold bind, get_heap. simpl. by destruct Hqp as [-> | ->].
Qed.

(** [isActive('blog.post', 7, { queryParams: null })] at [blog.post]. *)
Lemma isActive_null_query_params_witness :
  (isActive reference_router [VStr "blog.post"; VNum 7; VRef 3%positive]
     null_options_world).1 = Throw TypeError.
Proof.
  rewrite (isActive_null_query_params reference_router
             [VStr "blog.post"; VNum 7; VRef 3%positive]
             null_options_world null_options_world
             (mkRouteArgs (VStr "blog.post") [VNum 7] VNull)
             (VBool true) (st null_options_world)).
  - reflexivity.
  - vm_compute. reflexivity.
  - vm_compute. reflexivity.
  - left. reflexivity.
Defined.

(** X6.  An exception of the structural check is the exception of
    [isActive];
    nothing else is called. *)
Theorem isActive_intent_throws {E}
    (router : call → store E → outcome value * store E)
    (args : list value) (w w1 : world E) (ra : RouteArgs)
    (e : exn) (s : store E) :
  extractRouteArgs args w = (Ok ra, w1) →
  router (IsActiveIntent (routeName ra) (models ra) VNull) (st w1)
  = (Throw e, s) →
  isActive router args w =
    (Throw e,
     World s (trace w ++ [IsActiveIntent (routeName ra) (models ra) VNull])).
Proof.
  intros Hra Hc.
  rewrite (isActive_intent_Throw router args w ra w1 e s Hra Hc).
  by destruct (extractRouteArgs_frame args w ra w1 Hra) as (_ & -> & _).
Qed.

Lemma isActive_intent_throws_witness :
  (isActive (failing_router is_intent_call)
     [VStr "blog.post"; VNum 7; VRef 3%positive] page2_world).1
  = Throw router_error.
Proof.
  rewrite (isActive_intent_throws (failing_router is_intent_call)
             [VStr "blog.post"; VNum 7; VRef 3%positive]
             page2_world page2_world
             (mkRouteArgs (VStr "blog.post") [VNum 7] (VRef 2%positive))
             router_error (st page2_world)).
  - reflexivity.
  - vm_compute. reflexivity.
  - vm_compute. reflexivity.
Defined.

(** X7.  An exception of [_prepareQueryParams] is the exception of
    [isActive];
    the current state's query parameters are not read any more (lines
    261-267). *)
Theorem isActive_prepare_throws {E}
    (router : call → store E → outcome value * store E)
    (args : list value) (w w1 : world E) (ra : RouteArgs)
    (v : value) (n : nat) (e : exn) (s1 s2 : store E) :
  extractRouteArgs args w = (Ok ra, w1) →
  router (IsActiveIntent (routeName ra) (models ra) VNull) (st w1)
  = (Ok v, s1) →
  truthy v = true →
  own_keys_count (objects s1) (queryParams ra) = Some n →
  (0 < n)%nat →
  router (PrepareQueryParams (routeName ra) (models ra) (queryParams ra) true)
    s1 = (Throw e, s2) →
  isActive router args w =
    (Throw e,
     World s2
       (trace w ++
          [IsActiveIntent (routeName ra) (models ra) VNull;
           PrepareQueryParams (routeName ra) (models ra) (queryParams ra)
             true])).
Proof.
  intros Hra Hc Hv Hn Hpos Hprep.
  rewrite (isActive_intent_Ok router args w ra w1 v s1 Hra Hc).
  destruct (extractRouteArgs_frame args w ra w1 Hra) as (_ & -> & _).
  unfold isActive_after_intent. rewrite Hv. simpl.
  unfold bind at 1, get_heap at 1. cbn [st objects]. rewrite Hn.
  unfold bind at 1, lift_option at 1, ret at 1.
  rewrite (bool_decide_eq_true_2 _ Hpos).
  unfold bind at 1. rewrite (invoke_Throw_at router _ _ _ _ _ Hprep).
  by rewrite <- app_assoc.
Qed.

Lemma isActive_prepare_throws_witness :
  isActive (failing_router is_prepare_call)
    [VStr "blog.post"; VNum 7; VRef 3%positive] page2_world
  = (Throw router_error,
     World (st page2_world)
       [IsActiveIntent (VStr "blog.post") [VNum 7] VNull;
        PrepareQueryParams (VStr "blog.post") [VNum 7] (VRef 2%positive)
          true]).
Proof.
  refine (isActive_prepare_throws (failing_router is_prepare_call)
            [VStr "blog.post"; VNum 7; VRef 3%positive]
            page2_world page2_world
            (mkRouteArgs (VStr "blog.post") [VNum 7] (VRef 2%positive))
            (VBool true) 1 router_error (st page2_world) (st page2_world)
            _ _ _ _ _ _);
    first [lia | vm_compute; reflexivity].
Defined.

(** X8.  When reading the current state's query parameters fails (line
    267),
    [isActive] throws that exception, but only after the preparation step
    has run: the store it leaves, the caller's query-parameter map
    included, is the one the preparation step left. *)
Theorem isActive_state_read_throws {E}
    (router : call → store E → outcome value * store E)
    (args : list value) (w w1 : world E) (ra : RouteArgs)
    (v r : value) (n : nat) (e : exn) (s1 s2 s3 : store E) :
  extractRouteArgs args w = (Ok ra, w1) →
  router (IsActiveIntent (routeName ra) (models ra) VNull) (st w1)
  = (Ok v, s1) →
  truthy v = true →
  own_keys_count (objects s1) (queryParams ra) = Some n →
  (0 < n)%nat →
  router (PrepareQueryParams (routeName ra) (models ra) (queryParams ra) true)
    s1 = (Ok r, s2) →
  router StateQueryParams s2 = (Throw e, s3) →
  isActive router args w =
    (Throw e,
     World s3
       (trace w ++
          [IsActiveIntent (routeName ra) (models ra) VNull;
           PrepareQueryParams (routeName ra) (models ra) (queryParams ra)
             true;
           StateQueryParams])).
Proof.
  intros Hra Hc Hv Hn Hpos Hprep Hstate.
  rewrite (isActive_intent_Ok router args w ra w1 v s1 Hra Hc).
  destruct (extractRouteArgs_frame args w ra w1 Hra) as (_ & -> & _).
  unfold isActive_after_intent. rewrite Hv. simpl.
  unfold bind at 1, get_heap at 1. cbn [st objects]. rewrite Hn.
  unfold bind at 1, lift_option at 1, ret at 1.
  rewrite (bool_decide_eq_true_2 _ Hpos).
  unfold bind at 1. rewrite (invoke_Ok_at router _ _ _ _ _ Hprep).
  unfold bind at 1. rewrite (invoke_Throw_at router _ _ _ _ _ Hstate).
  by rewrite <- !app_assoc.
Qed.

(** The caller's [{ page: 2 }] is [{ page: 2, sort: 'asc' }] after the
    failed call. *)
Lemma isActive_state_read_throws_witness :
  (isActive (failing_router is_state_read)
     [VStr "blog.post"; VNum 7; VRef 3%positive] page2_world).1
  = Throw router_error
  ∧ mapping_of
      (objects (st (isActive (failing_router is_state_read)
                      [VStr "blog.post"; VNum 7; VRef 3%positive]
                      page2_world).2)) (VRef 2%positive)
    = Some {[ "page" := VNum 2; "sort" := VStr "asc" ]}.
Proof.
  rewrite (isActive_state_read_throws (failing_router is_state_read)
             [VStr "blog.post"; VNum 7; VRef 3%positive]
             page2_world page2_world
             (mkRouteArgs (VStr "blog.post") [VNum 7] (VRef 2%positive))
             (VBool true) VUndefined 1 router_error (st page2_world)
             (Store (<[2%positive :=
                         plain {[ "page" := VNum 2; "sort" := VStr "asc" ]}]>
                       page2_heap) blog_nav)
             (Store (<[2%positive :=
                         plain {[ "page" := VNum 2; "sort" := VStr "asc" ]}]>
                       page2_heap) blog_nav)).
  - split; vm_compute; reflexivity.
  - vm_compute. reflexivity.
  - vm_compute. reflexivity.
  - vm_compute. reflexivity.
  - vm_compute. reflexivity.
  - lia.
  - vm_compute. reflexivity.
  - vm_compute. reflexivity.
Defined.

(** X9.  After a structural check that answered, the preparation step is
    called
    exactly when the answer is truthy and [Object.keys(queryParams)] is not
    empty (lines 255-260); it is then the next call, and is handed the
    extracted map with [fromRouterService = true].  Otherwise the structural
    check is the only call. *)
Theorem isActive_reaches_preparation {E}
    (router : call → store E → outcome value * store E)
    (args : list value) (w w1 : world E) (ra : RouteArgs)
    (v : value) (s : store E) :
  extractRouteArgs args w = (Ok ra, w1) →
  router (IsActiveIntent (routeName ra) (models ra) VNull) (st w1)
  = (Ok v, s) →
  ∃ cs,
    trace (isActive router args w).2
    = trace w ++ IsActiveIntent (routeName ra) (models ra) VNull :: cs
    ∧ if truthy v
         && match own_keys_count (objects s) (queryParams ra) with
            | Some n => bool_decide (0 < n)%nat
            | None => false
            end
      then
        head cs
        = Some (PrepareQueryParams (routeName ra) (models ra)
                  (queryParams ra) true)
      else cs = [].
Proof.
  intros Hra Hc.
  rewrite (isActive_intent_Ok router args w ra w1 v s Hra Hc).
  destruct (extractRouteArgs_frame args w ra w1 Hra) as (_ & -> & _).
  set (I := IsActiveIntent (routeName ra) (models ra) VNull).
  set (P := PrepareQueryParams (routeName ra) (models ra) (queryParams ra)
              true).
  unfold isActive_after_intent. fold P.
  destruct (truthy v); simpl; [| by exists []].
  unfold bind at 1, get_heap at 1. cbn [st objects].
  destruct (own_keys_count (objects s) (queryParams ra)) as [n|];
    [| by exists []].
  unfold bind at 1, lift_option at 1, ret at 1.
  destruct (bool_decide (0 < n)%nat); [| by exists []].
  unfold bind at 1. rewrite invoke_run. cbn [st trace].
  destruct (router P s) as [[r|e] s2]; cbn [fst snd];
    [| exists [P]; by rewrite <- app_assoc].
  unfold bind at 1. rewrite invoke_run. cbn [st trace].
  exists [P; StateQueryParams].
  destruct (router StateQueryParams s2) as [[current|e] s3]; cbn [fst snd].
  - unfold bind, get_heap. cbn [st objects].
    destruct (shallowEqual (objects s3) (queryParams ra) current);
      simpl; by rewrite <- !app_assoc.
  - by rewrite <- !app_assoc.
Qed.

(** [isActive('blog.post', 7, { queryParams: { page: 2 } })] reaches the
    preparation step. *)
Lemma isActive_reaches_preparation_witness :
  ∃ cs,
    trace (isActive reference_router
             [VStr "blog.post"; VNum 7; VRef 3%positive] page2_world).2
    = IsActiveIntent (VStr "blog.post") [VNum 7] VNull :: cs
    ∧ head cs
      = Some (PrepareQueryParams (VStr "blog.post") [VNum 7]
                (VRef 2%positive) true).
Proof.
  apply (isActive_reaches_preparation reference_router
           [VStr "blog.post"; VNum 7; VRef 3%positive]
           page2_world page2_world
           (mkRouteArgs (VStr "blog.post") [VNum 7] (VRef 2%positive))
           (VBool true) (st page2_world));
    vm_compute; reflexivity.
Defined.
